(** * rt-mbms-modem: the PHY control component ([Phy.h], [Phy.cpp])

    A shallow embedding of class [Phy]: the cell record, the SIB13 and MCCH
    configuration, the subframe classifier, the MBSFN/MCCH scheduling
    function, the TMGI formatter of [set_mbsfn_config] and the two
    acquisition entry points [cell_search] and [synchronize_subframe].

    Conventions.
    - A C integer of width w is a [Z]; every operation that can leave the
      range of its C type has the wrap-around written out ([wrap32]).
    - Division by zero is undefined behaviour in C++; it is a fault ([None])
      here, and so is an exception thrown by [std::array::at].
    - A C array [x_list[N]] that travels with a counter [nof_x] is the list
      of its first [nof_x] entries; [for (i = 0; i < nof_x; i++)] is a
      recursion over that list that carries [i].
    - A field of an enumerated type that the code only ever reads through
      [enum_to_number] holds that number. *)

From Stdlib Require Import ZArith Lia List String Ascii.
From stdpp Require Import base option list strings gmap.

Local Open Scope Z_scope.

(** ** C integer arithmetic *)

Module Cint.

Definition wrap32 (z : Z) : Z := z mod 2 ^ 32.

Definition add32 (a b : Z) : Z := wrap32 (a + b).
Definition sub32 (a b : Z) : Z := wrap32 (a - b).
Definition mul32 (a b : Z) : Z := wrap32 (a * b).

(** [a % b] on unsigned operands; undefined for [b = 0]. *)
Definition umod (a b : Z) : option Z :=
  if b =? 0 then None else Some (a mod b).

Definition is_u8 (z : Z) : Prop := 0 <= z < 2 ^ 8.
Definition is_u16 (z : Z) : Prop := 0 <= z < 2 ^ 16.
Definition is_u32 (z : Z) : Prop := 0 <= z < 2 ^ 32.

End Cint.

Import Cint.

(** ** Data model *)

(** [srsran_cell_t], the fields [Phy] reads or writes. *)
Record srsran_cell_t : Type := mk_cell {
  nof_prb : Z;
  nof_ports : Z;
  id : Z;
  cp : Z;
  frame_type : Z;
  mbms_dedicated : bool;
  mbsfn_prb : Z
}.

Definition cell_zero : srsran_cell_t :=
  mk_cell 0 0 0 0 0 false 0.

Definition set_cell_mbsfn_prb (c : srsran_cell_t) (v : Z) : srsran_cell_t :=
  mk_cell (nof_prb c) (nof_ports c) (id c) (cp c) (frame_type c)
          (mbms_dedicated c) v.

Definition set_cell_mbms_dedicated (c : srsran_cell_t) (b : bool) : srsran_cell_t :=
  mk_cell (nof_prb c) (nof_ports c) (id c) (cp c) (frame_type c)
          b (mbsfn_prb c).

Definition set_cell_nof_ports (c : srsran_cell_t) (v : Z) : srsran_cell_t :=
  mk_cell (nof_prb c) v (id c) (cp c) (frame_type c)
          (mbms_dedicated c) (mbsfn_prb c).

(** Namespace [srsran::] of [rrc_interface_types.h]. *)
Module srsran.

Record plmn_id_t : Type := mk_plmn {
  mcc : Z * Z * Z;            (* mcc[0], mcc[1], mcc[2] *)
  mnc : Z * Z * Z;            (* mnc[0], mnc[1], mnc[2] *)
  nof_mnc_digits : Z
}.

Record tmgi_t : Type := mk_tmgi {
  plmn_id_explicit_value : plmn_id_t;
  serviced_id : Z * Z * Z     (* serviced_id[0..2] *)
}.

Record mbms_session_info_t : Type := mk_session {
  tmgi : tmgi_t;
  lc_ch_id : Z
}.

Record pmch_info_t : Type := mk_pmch {
  sf_alloc_end : Z;                              (* uint16_t *)
  data_mcs : Z;                                  (* uint8_t *)
  mch_sched_period : Z;                          (* enum_to_number, radio frames *)
  mbms_session_info_list : list mbms_session_info_t
}.

Record mcch_msg_t : Type := mk_mcch {
  pmch_info_list : list pmch_info_t
}.

Definition nof_pmch_info (m : mcch_msg_t) : nat := length (pmch_info_list m).

Record mcch_cfg_t : Type := mk_mcch_cfg {
  mcch_repeat_period : Z;                        (* enum_to_number, radio frames *)
  mcch_offset : Z;                               (* uint8_t *)
  sf_alloc_info : Z;
  sf_alloc_info_is_r16 : bool;
  sig_mcs : Z                                    (* enum_to_number *)
}.

Record mbsfn_area_info_t : Type := mk_area_info {
  mbsfn_area_id : Z;                             (* uint8_t *)
  non_mbsfn_region_len : Z;                      (* enum_to_number *)
  mcch_cfg : mcch_cfg_t;
  pmch_bandwidth : Z
}.

(** [mbsfn_area_info_list[0]] is read whatever [nof_mbsfn_area_info] says,
    so element 0 of the array is a field of its own. *)
Record sib13_t : Type := mk_sib13 {
  nof_mbsfn_area_info : Z;
  mbsfn_area_info_list_0 : mbsfn_area_info_t
}.

Definition mcch_cfg_zero : mcch_cfg_t := mk_mcch_cfg 0 0 0 false 0.
Definition sib13_zero : sib13_t :=
  mk_sib13 0 (mk_area_info 0 0 mcch_cfg_zero 0).
Definition mcch_zero : mcch_msg_t := mk_mcch [].

End srsran.

(** [Phy::mtch_info_t] and [Phy::mch_info_t]. *)
Record mtch_info_t : Type := mk_mtch {
  mtch_tmgi : string;
  mtch_dest : string;
  mtch_lcid : Z
}.

Record mch_info_t : Type := mk_mch {
  mch_mcs : Z;
  mtchs : list mtch_info_t
}.

(** [srsran_mbsfn_cfg_t]. The local [cfg] of [mbsfn_config_for_tti] is
    declared without an initialiser: a field that no statement assigns stays
    indeterminate, which is [None]. *)
Record srsran_mbsfn_cfg_t : Type := mk_cfg {
  enable : bool;
  is_mcch : bool;
  mbsfn_area_id : option Z;
  non_mbsfn_region_length : option Z;
  mbsfn_mcs : option Z
}.

(** The data members of [Phy] that hold the cell, the TTI and the multicast
    configuration. The handles of the srsRAN library ([_ue_sync],
    [_cell_search], [_mib_sync], [_mib]), the sample buffers and the sample
    callback are left out: the library calls that work on them enter the
    model through their results, and no statement below is about them. *)
Record Phy : Type := mk_phy {
  _cell : srsran_cell_t;
  _decode_mcch : bool;
  _tti : Z;
  _mcch_table : list Z;                            (* uint8_t[10] *)
  _mcch_configured : bool;
  _sib13 : srsran.sib13_t;
  _mcch : srsran.mcch_msg_t;
  _mch_configured : bool;
  _mch_info : list mch_info_t;
  _dests : gmap Z (gmap Z string);
  _cs_nof_prb : Z;
  _override_nof_prb : Z
}.

(** ** Subframe classifier *)

Definition is_cas_subframe (phy : Phy) (tti : Z) : bool :=
  if mbms_dedicated (_cell phy) then
    tti mod 40 =? 0
  else
    (tti mod 10 =? 0) || (tti mod 10 =? 4) || (tti mod 10 =? 5) || (tti mod 10 =? 9).

Definition is_mbsfn_subframe (phy : Phy) (tti : Z) : bool :=
  if mbms_dedicated (_cell phy) then
    negb (is_cas_subframe phy tti)
  else
    negb (is_cas_subframe phy tti) &&
    ((tti mod 10 =? 1) || (tti mod 10 =? 2) || (tti mod 10 =? 3) ||
     (tti mod 10 =? 6) || (tti mod 10 =? 7) || (tti mod 10 =? 8)).

(** ** Scheduling engine: [Phy::mbsfn_config_for_tti] *)

(** The value [cfg] holds after its first two assignments. *)
Definition cfg_init : srsran_mbsfn_cfg_t :=
  mk_cfg false false None None None.

(** [sf_idx] of channel [p], lines 357-363: [fn] is
    [fn_in_scheduling_period] (unsigned), [sf] is the [uint8_t] subframe
    number. In the mixed branch [sf - 1] and [sf - 3] are computed in [int]
    and converted to unsigned by the addition. *)
Definition sf_idx_of (dedicated : bool) (fn sf : Z) : Z :=
  if dedicated then
    sub32 (sub32 (add32 (mul32 fn 10) sf) (fn / 4)) 1
  else
    add32 (mul32 fn 6) (wrap32 (if sf <? 6 then sf - 1 else sf - 3)).

(** The test of line 367-368 that selects the signalling coding scheme. *)
Definition is_sig_subframe (all : list srsran.pmch_info_t) (i : nat)
    (fn sf sf_idx : Z) : bool :=
  ((i =? 0)%nat && (fn =? 0) && (sf =? 1)) ||
  ((0 <? i)%nat &&
   match all !! (i - 1)%nat with
   | Some prev => srsran.sf_alloc_end prev + 1 =? sf_idx
   | None => false
   end).

(** The loop of lines 356-378 from index [i] on, [rest] being the channels
    [i], [i+1], ... still to visit. [Some (Some (i, mcs))]: the loop left
    through [break] at channel [i] after assigning [area = i] and
    [cfg.mbsfn_mcs = mcs]; [Some None]: it ran to the end; [None]: fault. *)
Fixpoint pmch_scan (dedicated : bool) (sig : Z) (all : list srsran.pmch_info_t)
    (sfn sf : Z) (i : nat) (rest : list srsran.pmch_info_t)
    : option (option (nat * Z)) :=
  match rest with
  | [] => Some None
  | p :: rest' =>
      fn ← umod sfn (srsran.mch_sched_period p);
      let sf_idx := sf_idx_of dedicated fn sf in
      if sf_idx <=? srsran.sf_alloc_end p then
        if is_sig_subframe all i fn sf sf_idx
        then Some (Some (i, sig))
        else Some (Some (i, srsran.data_mcs p))
      else pmch_scan dedicated sig all sfn sf (S i) rest'
  end.

(** The method returns [cfg] and leaves the reference parameter [area]
    with the second component. *)
Definition mbsfn_config_for_tti (phy : Phy) (tti area : Z)
    : option (srsran_mbsfn_cfg_t * Z) :=
  if negb (_mcch_configured phy) then Some (cfg_init, area)
  else
    let sfn := tti / 10 in
    let sf := tti mod 10 in
    let area_info := srsran.mbsfn_area_info_list_0 (_sib13 phy) in
    let mc := srsran.mcch_cfg area_info in
    let aid := Some (srsran.mbsfn_area_id area_info) in
    let len := Some (srsran.non_mbsfn_region_len area_info) in
    r ← umod sfn (srsran.mcch_repeat_period mc);
    if (r =? srsran.mcch_offset mc) &&
       (default 0 (_mcch_table phy !! Z.to_nat sf) =? 1)
    then
      if _decode_mcch phy
      then Some (mk_cfg true true aid len (Some (srsran.sig_mcs mc)), area)
      else Some (mk_cfg false false aid len None, area)
    else
      if _mch_configured phy then
        m ← pmch_scan (mbms_dedicated (_cell phy)) (srsran.sig_mcs mc)
              (srsran.pmch_info_list (_mcch phy)) sfn sf 0%nat
              (srsran.pmch_info_list (_mcch phy));
        match m with
        | Some (i, mcs) => Some (mk_cfg true false aid len (Some mcs), Z.of_nat i)
        | None => Some (mk_cfg false false aid len None, area)
        end
      else Some (mk_cfg false false aid len None, area).

(** ** Setters of [Phy] *)

Definition with_cell (phy : Phy) (c : srsran_cell_t) : Phy :=
  mk_phy c (_decode_mcch phy) (_tti phy) (_mcch_table phy)
         (_mcch_configured phy) (_sib13 phy) (_mcch phy) (_mch_configured phy)
         (_mch_info phy) (_dests phy) (_cs_nof_prb phy) (_override_nof_prb phy).

Definition with_tti (phy : Phy) (t : Z) : Phy :=
  mk_phy (_cell phy) (_decode_mcch phy) t (_mcch_table phy)
         (_mcch_configured phy) (_sib13 phy) (_mcch phy) (_mch_configured phy)
         (_mch_info phy) (_dests phy) (_cs_nof_prb phy) (_override_nof_prb phy).

Definition with_sib13 (phy : Phy) (s : srsran.sib13_t) (table : list Z) : Phy :=
  mk_phy (_cell phy) (_decode_mcch phy) (_tti phy) table
         true s (_mcch phy) (_mch_configured phy)
         (_mch_info phy) (_dests phy) (_cs_nof_prb phy) (_override_nof_prb phy).

Definition with_mcch (phy : Phy) (m : srsran.mcch_msg_t)
    (info : list mch_info_t) (dests : gmap Z (gmap Z string)) : Phy :=
  mk_phy (_cell phy) (_decode_mcch phy) (_tti phy) (_mcch_table phy)
         (_mcch_configured phy) (_sib13 phy) m true
         info dests (_cs_nof_prb phy) (_override_nof_prb phy).

(** [void set_nof_mbsfn_prb(uint8_t prb) { _cell.mbsfn_prb = prb; }] *)
Definition set_nof_mbsfn_prb (phy : Phy) (prb : Z) : Phy :=
  with_cell phy (set_cell_mbsfn_prb (_cell phy) prb).

(** [void set_decode_mcch(bool d) { _decode_mcch = d; }] *)
Definition set_decode_mcch (phy : Phy) (d : bool) : Phy :=
  mk_phy (_cell phy) d (_tti phy) (_mcch_table phy)
         (_mcch_configured phy) (_sib13 phy) (_mcch phy) (_mch_configured phy)
         (_mch_info phy) (_dests phy) (_cs_nof_prb phy) (_override_nof_prb phy).

(** [void reset() { _mcch_configured = _mch_configured = false; }] *)
Definition reset (phy : Phy) : Phy :=
  mk_phy (_cell phy) (_decode_mcch phy) (_tti phy) (_mcch_table phy)
         false (_sib13 phy) (_mcch phy) false
         (_mch_info phy) (_dests phy) (_cs_nof_prb phy) (_override_nof_prb phy).

(** The constant and the functions of the srsRAN library that the modelled
    methods use and whose result depends on their arguments only. The
    library is not part of this repository: every statement below holds
    for any such functions. *)
Record srsran_api : Type := mk_api {
  SRSRAN_BCH_PAYLOAD_LEN : nat;
  generate_mcch_table : list Z -> Z -> list Z;
  generate_mcch_table_r16 : list Z -> Z -> list Z;
  (* payload, cell, override_nof_prb: the cell as updated, and the SFN *)
  srsran_pbch_mib_mbms_unpack : list Z -> srsran_cell_t -> Z -> srsran_cell_t * Z;
  srsran_pbch_mib_unpack : list Z -> srsran_cell_t -> srsran_cell_t * Z;
  srsran_cell_isvalid : srsran_cell_t -> bool
}.

(** ** [Phy::set_mch_scheduling_info] *)

Definition set_mch_scheduling_info (api : srsran_api) (phy : Phy)
    (sib13 : srsran.sib13_t) : Phy :=
  let a0 := srsran.mbsfn_area_info_list_0 sib13 in
  let phy1 :=
    if negb (srsran.pmch_bandwidth a0 =? 0)
    then with_cell phy (set_cell_mbsfn_prb (_cell phy) (srsran.pmch_bandwidth a0))
    else phy in
  if 0 <? srsran.nof_mbsfn_area_info sib13 then
    let zeroed := replicate 10 0 in
    let table :=
      if srsran.sf_alloc_info_is_r16 (srsran.mcch_cfg a0)
      then generate_mcch_table_r16 api zeroed (srsran.sf_alloc_info (srsran.mcch_cfg a0))
      else generate_mcch_table api zeroed (srsran.sf_alloc_info (srsran.mcch_cfg a0)) in
    with_sib13 phy1 sib13 table
  else phy1.

(** ** [Phy::set_mbsfn_config] and the TMGI string *)

Definition hex_digit (d : Z) : ascii :=
  match d with
  | 0 => "0" | 1 => "1" | 2 => "2" | 3 => "3"
  | 4 => "4" | 5 => "5" | 6 => "6" | 7 => "7"
  | 8 => "8" | 9 => "9" | 10 => "a" | 11 => "b"
  | 12 => "c" | 13 => "d" | 14 => "e" | _ => "f"
  end%char.

(** The digits of [n] in base 16, most significant first, in front of
    [acc]; [fuel] bounds the number of digits. *)
Fixpoint hex_digits (fuel : nat) (n : Z) (acc : string) : string :=
  match fuel with
  | O => acc
  | S fuel' =>
      let acc' := String (hex_digit (n mod 16)) acc in
      if n / 16 =? 0 then acc' else hex_digits fuel' (n / 16) acc'
  end.

Fixpoint zeros (k : nat) : string :=
  match k with
  | O => EmptyString
  | S k' => String "0"%char (zeros k')
  end.

(** [printf]'s [%0<width>x] for an [unsigned int]: at most 8 digits, padded
    with zeros on the left up to [width]. *)
Definition fmt_0x (width : nat) (n : Z) : string :=
  let s := hex_digits 8 n EmptyString in
  (zeros (width - String.length s) +:+ s)%string.

(** The four arguments that line 287-294 passes to [sprintf]. *)
Definition tmgi_service (t : srsran.tmgi_t) : Z :=
  let '(s0, s1, s2) := srsran.serviced_id t in
  Z.lor (Z.lor s2 (Z.shiftl s1 8)) (Z.shiftl s0 16).

Definition tmgi_octet6 (t : srsran.tmgi_t) : Z :=
  let '(mcc0, mcc1, _) := srsran.mcc (srsran.plmn_id_explicit_value t) in
  Z.lor (Z.shiftl mcc1 4) mcc0.

Definition tmgi_octet7 (t : srsran.tmgi_t) : Z :=
  let p := srsran.plmn_id_explicit_value t in
  let '(_, _, mcc2) := srsran.mcc p in
  let '(_, _, mnc2) := srsran.mnc p in
  Z.lor (Z.shiftl (if srsran.nof_mnc_digits p =? 2 then 15 else mnc2) 4) mcc2.

Definition tmgi_octet8 (t : srsran.tmgi_t) : Z :=
  let '(mnc0, mnc1, _) := srsran.mnc (srsran.plmn_id_explicit_value t) in
  Z.lor (Z.shiftl mnc1 4) mnc0.

(** [sprintf (tmgi, "%06x%02x%02x%02x", ...)] *)
Definition tmgi_string (t : srsran.tmgi_t) : string :=
  (fmt_0x 6 (tmgi_service t) +:+ fmt_0x 2 (tmgi_octet6 t) +:+
   fmt_0x 2 (tmgi_octet7 t) +:+ fmt_0x 2 (tmgi_octet8 t))%string.

(** [_dests[i][lcid]]: [std::map::operator[]] inserts an empty value for a
    key that is absent, at both levels. *)
Definition dests_at (d : gmap Z (gmap Z string)) (i lcid : Z)
    : string * gmap Z (gmap Z string) :=
  let inner := default ∅ (d !! i) in
  let dest := default EmptyString (inner !! lcid) in
  (dest, <[i := <[lcid := dest]> inner]> d).

(** The inner loop over the sessions of channel [i]. *)
Fixpoint mtchs_of (i : Z) (sessions : list srsran.mbms_session_info_t)
    (d : gmap Z (gmap Z string)) (acc : list mtch_info_t)
    : list mtch_info_t * gmap Z (gmap Z string) :=
  match sessions with
  | [] => (acc, d)
  | s :: sessions' =>
      let lcid := srsran.lc_ch_id s in
      let '(dest, d') := dests_at d i lcid in
      mtchs_of i sessions' d'
               (acc ++ [mk_mtch (tmgi_string (srsran.tmgi s)) dest lcid])
  end.

(** The outer loop over the channels. *)
Fixpoint mch_info_of (i : Z) (pmchs : list srsran.pmch_info_t)
    (d : gmap Z (gmap Z string)) (acc : list mch_info_t)
    : list mch_info_t * gmap Z (gmap Z string) :=
  match pmchs with
  | [] => (acc, d)
  | p :: pmchs' =>
      let '(ms, d') := mtchs_of i (srsran.mbms_session_info_list p) d [] in
      mch_info_of (i + 1) pmchs' d' (acc ++ [mk_mch (srsran.data_mcs p) ms])
  end.

Definition set_mbsfn_config (phy : Phy) (mcch : srsran.mcch_msg_t) : Phy :=
  let '(info, d) := mch_info_of 0 (srsran.pmch_info_list mcch) (_dests phy) [] in
  with_mcch phy mcch info d.

(** ** Acquisition: [Phy::synchronize_subframe] and [Phy::cell_search] *)

Definition kMaxSfn : Z := 1024.
Definition kSfnOffset : Z := 4.
Definition kSubframesPerFrame : Z := 10.
Definition kMaxCellsToDiscover : nat := 3.

(** Lines 78 and 81, 147 and 150: [sfn] is [uint32_t], [sfn_offset] is
    [int] and becomes unsigned in the mixed arithmetic. *)
Definition sfn_dedicated (sfn sfn_offset : Z) : Z :=
  add32 sfn (mul32 (wrap32 sfn_offset) kSfnOffset) mod kMaxSfn.

Definition sfn_mixed (sfn sfn_offset : Z) : Z :=
  add32 sfn (wrap32 sfn_offset) mod kMaxSfn.

(** What the sample source and the MIB decoder hand back during one call of
    [synchronize_subframe]. *)
Record sync_io : Type := mk_sync_io {
  zerocopy_ret : Z;            (* srsran_ue_sync_zerocopy *)
  sfidx : Z;                   (* srsran_ue_sync_get_sfidx *)
  mib_decode_ret : Z;          (* srsran_ue_mib_decode *)
  mib_sfn_offset : Z;          (* sfn_offset after the call *)
  mib_payload : list Z         (* bch_payload after the call *)
}.

Definition synchronize_subframe (api : srsran_api) (io : sync_io) (phy : Phy)
    : bool * Phy :=
  if zerocopy_ret io <? 0 then (false, phy)
  else if zerocopy_ret io =? 1 then
    if sfidx io =? 0 then
      if mib_decode_ret io =? 1 then
        let '(cell', sfn) :=
          if mbms_dedicated (_cell phy) then
            let '(c, sfn0) := srsran_pbch_mib_mbms_unpack api (mib_payload io)
                                (_cell phy) (_override_nof_prb phy) in
            (c, sfn_dedicated sfn0 (mib_sfn_offset io))
          else
            let '(c, sfn0) := srsran_pbch_mib_unpack api (mib_payload io)
                                (_cell phy) in
            (c, sfn_mixed sfn0 (mib_sfn_offset io)) in
        (true, with_tti (with_cell phy cell') (mul32 sfn kSubframesPerFrame))
      else (false, phy)
    else (false, phy)
  else (false, phy).

(** [srsran_ue_cellsearch_result_t], the fields [cell_search] copies. *)
Record srsran_ue_cellsearch_result_t : Type := mk_found {
  found_cell_id : Z;
  found_cp : Z;
  found_frame_type : Z
}.

(** The locals that [srsran_ue_mib_sync_decode_prb] writes through
    pointers. *)
Record mib_out : Type := mk_mib_out {
  out_nof_ports : Z;
  out_sfn_offset : Z;
  out_payload : list Z
}.

(** What the PHY engine hands back during one call of [cell_search]. The
    two MIB attempts are given as functions of the locals they may
    overwrite. *)
Record cell_search_io : Type := mk_cs_io {
  scan_ret : Z;
  found_cells : list srsran_ue_cellsearch_result_t;   (* std::array, 3 entries *)
  max_peak_cell : Z;
  set_cell_prb_dedicated : Z;
  decode_dedicated : mib_out -> Z * mib_out;
  set_cell_prb_mixed : Z;
  decode_mixed : mib_out -> Z * mib_out;
  ue_sync_set_cell_ret : Z;
  ue_mib_set_cell_ret : Z
}.

(** Lines 141-181, after the MIB attempts: [ret] is the result of the last
    attempt, [new_cell] and [o] the locals as the attempts left them. *)
Definition cell_search_finish (api : srsran_api) (io : cell_search_io)
    (phy : Phy) (ret : Z) (new_cell : srsran_cell_t) (o : mib_out)
    : bool * Phy :=
  if ret =? 1 then
    let '(unpacked, _) :=
      if mbms_dedicated new_cell
      then srsran_pbch_mib_mbms_unpack api (out_payload o) new_cell
             (_override_nof_prb phy)
      else srsran_pbch_mib_unpack api (out_payload o) new_cell in
    if negb (srsran_cell_isvalid api unpacked) then (false, phy)
    else
      let phy' := with_cell phy (set_cell_mbsfn_prb unpacked (nof_prb unpacked)) in
      if negb (ue_sync_set_cell_ret io =? 0) then (false, phy')
      else if negb (ue_mib_set_cell_ret io =? 0) then (false, phy')
      else (true, phy')
  else (false, phy).

(** [None] is the exception of [found_cells.at(max_peak_cell)]. *)
Definition cell_search (api : srsran_api) (io : cell_search_io) (phy : Phy)
    : option (bool * Phy) :=
  if scan_ret io <? 0 then Some (false, phy)
  else if scan_ret io =? 0 then Some (false, phy)
  else
    found ← (if (0 <=? max_peak_cell io) &&
                (max_peak_cell io <? Z.of_nat kMaxCellsToDiscover)
             then found_cells io !! Z.to_nat (max_peak_cell io)
             else None);
    let new_cell :=
      mk_cell 0 0 (found_cell_id found) (found_cp found)
              (found_frame_type found) true 0 in
    let o0 := mk_mib_out 0 0 (replicate (SRSRAN_BCH_PAYLOAD_LEN api) 0) in
    if negb (set_cell_prb_dedicated io =? 0) then Some (false, phy)
    else
      let '(ret1, o1) := decode_dedicated io o0 in
      let cell1 := set_cell_nof_ports new_cell (out_nof_ports o1) in
      if ret1 =? 0 then
        (* MIB-MBMS failed, try to decode regular MIB *)
        let cell2 := set_cell_mbms_dedicated cell1 false in
        if negb (set_cell_prb_mixed io =? 0) then Some (false, phy)
        else
          let '(ret2, o2) := decode_mixed io o1 in
          Some (cell_search_finish api io phy ret2
                  (set_cell_nof_ports cell2 (out_nof_ports o2)) o2)
      else Some (cell_search_finish api io phy ret1 cell1 o1).

(** ** Well-formed inputs *)

(** The ranges of the C types of the configuration that the scheduling
    function reads. The number of an enumerated period is not zero. *)
Definition pmch_ok (p : srsran.pmch_info_t) : Prop :=
  is_u16 (srsran.sf_alloc_end p) /\
  0 < srsran.mch_sched_period p < 2 ^ 16.

Definition sched_ok (phy : Phy) : Prop :=
  0 < srsran.mcch_repeat_period
        (srsran.mcch_cfg (srsran.mbsfn_area_info_list_0 (_sib13 phy))) < 2 ^ 16 /\
  Forall pmch_ok (srsran.pmch_info_list (_mcch phy)).

(** What the function needs in order to return: no modulo by zero. *)
Definition periods_ok (phy : Phy) : Prop :=
  srsran.mcch_repeat_period
    (srsran.mcch_cfg (srsran.mbsfn_area_info_list_0 (_sib13 phy))) <> 0 /\
  Forall (fun p => srsran.mch_sched_period p <> 0)
         (srsran.pmch_info_list (_mcch phy)).

(** The MCCH test of lines 344-345. *)
Definition mcch_slot (phy : Phy) (tti : Z) : bool :=
  let mc := srsran.mcch_cfg (srsran.mbsfn_area_info_list_0 (_sib13 phy)) in
  ((tti / 10) mod srsran.mcch_repeat_period mc =? srsran.mcch_offset mc) &&
  (default 0 (_mcch_table phy !! Z.to_nat (tti mod 10)) =? 1).

(** The TTI reaches the loop over the channels: MCCH is configured, the
    MCCH test fails, and an MCCH message has been received. *)
Definition reaches_channel_check (phy : Phy) (tti : Z) : Prop :=
  _mcch_configured phy = true /\
  mcch_slot phy tti = false /\
  _mch_configured phy = true.

(** The allocation index as the specification writes it, over the
    integers: [periodFrame*10 + subframeIndex - floor(periodFrame/4) - 1]
    for a multicast-dedicated cell, [periodFrame*6 + (subframeIndex<6 ?
    subframeIndex-1 : subframeIndex-3)] for a mixed cell. *)
Definition alloc_index_spec (dedicated : bool) (periodFrame subframeIndex : Z) : Z :=
  if dedicated then
    periodFrame * 10 + subframeIndex - periodFrame / 4 - 1
  else
    periodFrame * 6 +
    (if subframeIndex <? 6 then subframeIndex - 1 else subframeIndex - 3).

(** The index that the loop computes for channel [p] at frame [sfn],
    subframe [sf]. *)
Definition chan_idx (dedicated : bool) (sfn sf : Z) (p : srsran.pmch_info_t) : Z :=
  sf_idx_of dedicated (sfn mod srsran.mch_sched_period p) sf.

(** Channel [p] is visited without a fault and its window does not hold
    the subframe. *)
Definition chan_skipped (dedicated : bool) (sfn sf : Z) (p : srsran.pmch_info_t) : Prop :=
  srsran.mch_sched_period p <> 0 /\
  srsran.sf_alloc_end p < chan_idx dedicated sfn sf p.

(** The coding scheme assigned when the loop stops at channel [p] of
    index [k]. *)
Definition chan_mcs (dedicated : bool) (sig : Z) (all : list srsran.pmch_info_t)
    (sfn sf : Z) (k : nat) (p : srsran.pmch_info_t) : Z :=
  if is_sig_subframe all k (sfn mod srsran.mch_sched_period p) sf
       (chan_idx dedicated sfn sf p)
  then sig else srsran.data_mcs p.

Definition area_info (phy : Phy) : srsran.mbsfn_area_info_t :=
  srsran.mbsfn_area_info_list_0 (_sib13 phy).

Definition channels (phy : Phy) : list srsran.pmch_info_t :=
  srsran.pmch_info_list (_mcch phy).

(** ** Concrete configurations *)

(** A freshly constructed [Phy]: the member initialisers of [Phy.h], with
    25 resource blocks for the cell search and no override. *)
Definition phy_new : Phy :=
  mk_phy cell_zero false 0 (replicate 10 0) false srsran.sib13_zero
         srsran.mcch_zero false [] ∅ 25 0.

(** SIB13 of the scenarios: one area, MCCH repetition period 32 frames,
    offset 0, signalling coding scheme 2. *)
Definition sib13_scenario : srsran.sib13_t :=
  srsran.mk_sib13 1
    (srsran.mk_area_info 1 1 (srsran.mk_mcch_cfg 32 0 32 true 2) 0).

(** An engine whose table generators mark subframe 0 only. *)
Definition api_scenario : srsran_api :=
  mk_api 24 (fun t _ => <[0%nat := 1]> t) (fun t _ => <[0%nat := 1]> t)
         (fun _ c _ => (c, 0)) (fun _ c => (c, 0)) (fun _ => true).

(** A multicast-dedicated cell of 25 resource blocks, SIB13 received, MCCH
    decoding enabled, and the MCCH message with the channels [chans]. *)
Definition phy_scenario (dedicated : bool) (chans : list srsran.pmch_info_t) : Phy :=
  set_mbsfn_config
    (set_mch_scheduling_info api_scenario
       (set_decode_mcch
          (with_cell phy_new (mk_cell 25 1 1 0 0 dedicated 25)) true)
       sib13_scenario)
    (srsran.mk_mcch chans).

(** One channel of scheduling period 32 frames, [sf_alloc_end = 9]. *)
Definition chans_one : list srsran.pmch_info_t :=
  [srsran.mk_pmch 9 10 32 []].

(** Two channels of one scheduling period, windows 0..9 and 10..19. *)
Definition chans_two : list srsran.pmch_info_t :=
  [srsran.mk_pmch 9 10 32 []; srsran.mk_pmch 19 12 32 []].

(** Two channels whose scheduling periods differ: 8 and 16 frames. *)
Definition chans_two_periods : list srsran.pmch_info_t :=
  [srsran.mk_pmch 9 10 8 []; srsran.mk_pmch 100 12 16 []].

(** An engine that reads 25 resource blocks out of every MIB. *)
Definition api_prb25 : srsran_api :=
  mk_api 24 (fun t _ => t) (fun t _ => t)
         (fun _ c _ => (mk_cell 25 (nof_ports c) (id c) (cp c) (frame_type c)
                          (mbms_dedicated c) (mbsfn_prb c), 7))
         (fun _ c => (mk_cell 25 (nof_ports c) (id c) (cp c) (frame_type c)
                        (mbms_dedicated c) (mbsfn_prb c), 7))
         (fun _ => true).

(** A cell search that finds one cell and decodes MIB-MBMS at once. *)
Definition io_found : cell_search_io :=
  mk_cs_io 1 [mk_found 1 0 0; mk_found 0 0 0; mk_found 0 0 0] 0
           0 (fun o => (1, mk_mib_out 1 0 (out_payload o)))
           0 (fun o => (1, mk_mib_out 1 0 (out_payload o)))
           0 0.

(** SIB13 that signals a PMCH bandwidth of 40 resource blocks. *)
Definition sib13_pmch40 : srsran.sib13_t :=
  srsran.mk_sib13 1
    (srsran.mk_area_info 1 1 (srsran.mk_mcch_cfg 32 0 32 true 2) 40).

(** Subframe 0 of a frame whose MIB decodes, with [sfn_offset = 7]. *)
Definition io_sync : sync_io := mk_sync_io 1 0 1 7 [].

(** Exactly [k] digits of [n] in base 16 in front of [acc]. *)
Fixpoint hex_fixed (k : nat) (n : Z) (acc : string) : string :=
  match k with
  | O => acc
  | S k' => hex_fixed k' (n / 16) (String (hex_digit (n mod 16)) acc)
  end.

Definition is_nibble (d : Z) : Prop := 0 <= d < 16.

(** The digits of the PLMN are nibbles and the service identifier is three
    bytes. *)
Definition tmgi_ok (t : srsran.tmgi_t) : Prop :=
  let p := srsran.plmn_id_explicit_value t in
  let '(mcc0, mcc1, mcc2) := srsran.mcc p in
  let '(mnc0, mnc1, mnc2) := srsran.mnc p in
  let '(s0, s1, s2) := srsran.serviced_id t in
  is_nibble mcc0 /\ is_nibble mcc1 /\ is_nibble mcc2 /\
  is_nibble mnc0 /\ is_nibble mnc1 /\ is_nibble mnc2 /\
  is_u8 s0 /\ is_u8 s1 /\ is_u8 s2.

(** The twelve characters of the packing rule of TS 24.008, 10.5.6.13:
    the service identifier, then octet 6 (MCC digit 2, MCC digit 1),
    octet 7 (MNC digit 3 or the filler, MCC digit 3) and octet 8 (MNC digit
    2, MNC digit 1), high nibble first. *)
Definition tmgi_packed (t : srsran.tmgi_t) : string :=
  let p := srsran.plmn_id_explicit_value t in
  let '(mcc0, mcc1, mcc2) := srsran.mcc p in
  let '(mnc0, mnc1, mnc2) := srsran.mnc p in
  let '(s0, s1, s2) := srsran.serviced_id t in
  string_of_list_ascii
    [hex_digit (s0 / 16); hex_digit (s0 mod 16);
     hex_digit (s1 / 16); hex_digit (s1 mod 16);
     hex_digit (s2 / 16); hex_digit (s2 mod 16);
     hex_digit mcc1; hex_digit mcc0;
     hex_digit (if srsran.nof_mnc_digits p =? 2 then 15 else mnc2);
     hex_digit mcc2;
     hex_digit mnc1; hex_digit mnc0].

(** MCC 901, MNC 56 (two digits), service identifier 0x000001. *)
Definition tmgi_901_56 : srsran.tmgi_t :=
  srsran.mk_tmgi (srsran.mk_plmn (9, 0, 1) (5, 6, 0) 2) (0, 0, 1).

(** An MCCH message with one channel that carries that one session. *)
Definition mcch_901_56 : srsran.mcch_msg_t :=
  srsran.mk_mcch [srsran.mk_pmch 9 10 32 [srsran.mk_session tmgi_901_56 1]].

(** What an entry of the reporting view says about its session. *)
Definition mtch_of_session (s : srsran.mbms_session_info_t) (m : mtch_info_t) : Prop :=
  mtch_tmgi m = tmgi_string (srsran.tmgi s) /\ mtch_lcid m = srsran.lc_ch_id s.

Definition mch_of_pmch (p : srsran.pmch_info_t) (mch : mch_info_t) : Prop :=
  mch_mcs mch = srsran.data_mcs p /\
  Forall2 mtch_of_session (srsran.mbms_session_info_list p) (mtchs mch).

(** ** Further members of [Phy] and of [RestHandler] *)

(** [void set_dest_for_lcid(uint32_t mch_idx, int lcid, std::string dest)
    { _dests[mch_idx][lcid] = dest; }] *)
Definition set_dest_for_lcid (phy : Phy) (mch_idx lcid : Z) (dest : string) : Phy :=
  mk_phy (_cell phy) (_decode_mcch phy) (_tti phy) (_mcch_table phy)
         (_mcch_configured phy) (_sib13 phy) (_mcch phy) (_mch_configured phy)
         (_mch_info phy)
         (<[mch_idx := <[lcid := dest]> (default ∅ (_dests phy !! mch_idx))]>
            (_dests phy))
         (_cs_nof_prb phy) (_override_nof_prb phy).

(** What a reader of [_dests[i][lcid]] gets: the label stored, or the empty
    string that [operator[]] creates. *)
Definition dest_view (d : gmap Z (gmap Z string)) (i lcid : Z) : string :=
  default EmptyString (default ∅ (d !! i) !! lcid).

(** Both levels of [_dests] hold the key. *)
Definition dest_present (d : gmap Z (gmap Z string)) (i lcid : Z) : Prop :=
  exists inner dest, d !! i = Some inner /\ inner !! lcid = Some dest.

(** The number of subframes [t] with [start <= t < start + n] that
    [is_mbsfn_subframe] accepts. *)
Fixpoint mbsfn_count (phy : Phy) (start : Z) (n : nat) : Z :=
  match n with
  | O => 0
  | S n' =>
      mbsfn_count phy start n' +
      (if is_mbsfn_subframe phy (start + Z.of_nat n') then 1 else 0)
  end.

(** [RestHandler::add_cinr_value]: [_cinr_db] is a [std::vector<float>];
    the values are stored and never computed with, so their type is left
    open. [CINR_RAVG_CNT] is declared in [RestHandler.h]. *)
Definition add_cinr_value {A : Type} (CINR_RAVG_CNT : nat) (_cinr_db : list A)
    (cinr : A) : list A :=
  (if (CINR_RAVG_CNT <? length _cinr_db)%nat then drop 1 _cinr_db else _cinr_db)
  ++ [cinr].

(** Three channels of one scheduling period of 8 frames, with the session
    lists of the second one filled. *)
Definition chans_three : list srsran.pmch_info_t :=
  [srsran.mk_pmch 9 10 8 [];
   srsran.mk_pmch 19 12 8 [srsran.mk_session tmgi_901_56 1;
                            srsran.mk_session tmgi_901_56 2];
   srsran.mk_pmch 29 14 8 []].

(** The number of MBSFN subframes of a mixed-cell radio frame before
    subframe [r]: subframes 1, 2, 3, 6, 7, 8 are the MBSFN ones. *)
Definition mixed_rank_in_frame (r : Z) : Z :=
  if r <=? 1 then 0 else if r <=? 3 then r - 1 else if r <=? 6 then 3 else r - 3.

(** The reporting view as a function of the destinations that were there
    before the call: the entries of the sessions of channel [i] ... *)
Definition mtchs_view (d : gmap Z (gmap Z string)) (i : Z)
    (sessions : list srsran.mbms_session_info_t) : list mtch_info_t :=
  map (fun s => mk_mtch (tmgi_string (srsran.tmgi s))
                        (dest_view d i (srsran.lc_ch_id s))
                        (srsran.lc_ch_id s))
      sessions.

(** ... and the entries of the channels [i], [i+1], ... *)
Fixpoint mch_info_view (d : gmap Z (gmap Z string)) (i : Z)
    (pmchs : list srsran.pmch_info_t) : list mch_info_t :=
  match pmchs with
  | [] => []
  | p :: pmchs' =>
      mk_mch (srsran.data_mcs p)
             (mtchs_view d i (srsran.mbms_session_info_list p))
      :: mch_info_view d (i + 1) pmchs'
  end.

(** Channel [k] of the list [pmchs], numbered from [i], has all its keys
    in [d]. *)
Definition channels_present (d : gmap Z (gmap Z string)) (i : Z)
    (pmchs : list srsran.pmch_info_t) : Prop :=
  forall (k : nat) p, pmchs !! k = Some p ->
    Forall (fun s => dest_present d (i + Z.of_nat k) (srsran.lc_ch_id s))
           (srsran.mbms_session_info_list p).

(** The value of a hexadecimal digit as [hex_digit] prints it. *)
Definition hex_value (c : ascii) : Z :=
  (if Ascii.eqb c "0" then 0 else if Ascii.eqb c "1" then 1
   else if Ascii.eqb c "2" then 2 else if Ascii.eqb c "3" then 3
   else if Ascii.eqb c "4" then 4 else if Ascii.eqb c "5" then 5
   else if Ascii.eqb c "6" then 6 else if Ascii.eqb c "7" then 7
   else if Ascii.eqb c "8" then 8 else if Ascii.eqb c "9" then 9
   else if Ascii.eqb c "a" then 10 else if Ascii.eqb c "b" then 11
   else if Ascii.eqb c "c" then 12 else if Ascii.eqb c "d" then 13
   else if Ascii.eqb c "e" then 14 else 15)%char.

(** The nibble that is printed for MNC digit 3. *)
Definition tmgi_mnc3 (t : srsran.tmgi_t) : Z :=
  let p := srsran.plmn_id_explicit_value t in
  if srsran.nof_mnc_digits p =? 2 then 15 else snd (srsran.mnc p).

(** MCC 262, MNC 001 (three digits), service identifier 0xabcdef. *)
Definition tmgi_262_001 : srsran.tmgi_t :=
  srsran.mk_tmgi (srsran.mk_plmn (2, 6, 2) (0, 0, 1) 3) (171, 205, 239).


(** The scenario cell with an MCCH table that marks no subframe: the
    generators of [api_prb25] leave the zeroed table as it is. *)
Definition phy_unmarked (dedicated : bool) (chans : list srsran.pmch_info_t) : Phy :=
  set_mbsfn_config
    (set_mch_scheduling_info api_prb25
       (set_decode_mcch
          (with_cell phy_new (mk_cell 25 1 1 0 0 dedicated 25)) true)
       sib13_scenario)
    (srsran.mk_mcch chans).

(** ** The method as a program over the object *)

(** [srsran_mbsfn_cfg_t] as the C struct it is: every field holds a value,
    also a field that no statement has assigned, which holds what the stack
    held. *)
Module raw.

Record srsran_mbsfn_cfg_t : Type := mk {
  enable : bool;
  is_mcch : bool;
  mbsfn_area_id : Z;
  non_mbsfn_region_length : Z;
  mbsfn_mcs : Z
}.

End raw.

(** A member function as a computation over the object: it is handed the
    object, may fault, and hands back a result and the object as it left
    it. *)
Definition PhyM (A : Type) : Type := Phy -> option (A * Phy).

Definition retM {A : Type} (a : A) : PhyM A := fun s => Some (a, s).

Definition bindM {A B : Type} (m : PhyM A) (f : A -> PhyM B) : PhyM B :=
  fun s => match m s with
           | Some (a, s') => f a s'
           | None => None
           end.

(** Reading a data member. *)
Definition member {A : Type} (f : Phy -> A) : PhyM A := fun s => Some (f s, s).

(** Assigning to data members. *)
Definition assign (f : Phy -> Phy) : PhyM unit := fun s => Some (tt, f s).

(** An operation that is undefined where [o] is [None]. *)
Definition liftM {A : Type} (o : option A) : PhyM A :=
  fun s => match o with
           | Some a => Some (a, s)
           | None => None
           end.

#[global] Instance PhyM_ret : MRet PhyM := @retM.
#[global] Instance PhyM_bind : MBind PhyM := fun A B f m => bindM m f.

(** The loop of lines 356-378, statement by statement: every iteration
    reads [_mcch.nof_pmch_info], the entry [i], the cell mode and, on a
    match, the previous entry and the signalling coding scheme. [fuel]
    bounds the number of iterations; running out of it is a fault. *)
Fixpoint pmch_loop_m (fuel : nat) (sfn sf : Z) (i : nat)
    (cfg : raw.srsran_mbsfn_cfg_t) (area : Z)
    : PhyM (raw.srsran_mbsfn_cfg_t * Z) :=
  match fuel with
  | O => liftM None
  | S fuel' =>
      nof ← member (fun s => srsran.nof_pmch_info (_mcch s));
      if (i <? nof)%nat then
        entry ← member (fun s => srsran.pmch_info_list (_mcch s) !! i);
        p ← liftM entry;
        fn ← liftM (umod sfn (srsran.mch_sched_period p));
        dedicated ← member (fun s => mbms_dedicated (_cell s));
        let sf_idx := sf_idx_of dedicated fn sf in
        if sf_idx <=? srsran.sf_alloc_end p then
          all ← member (fun s => srsran.pmch_info_list (_mcch s));
          if is_sig_subframe all i fn sf sf_idx then
            sig ← member (fun s => srsran.sig_mcs
                            (srsran.mcch_cfg
                               (srsran.mbsfn_area_info_list_0 (_sib13 s))));
            mret (raw.mk true (raw.is_mcch cfg) (raw.mbsfn_area_id cfg)
                    (raw.non_mbsfn_region_length cfg) sig, Z.of_nat i)
          else
            mret (raw.mk true (raw.is_mcch cfg) (raw.mbsfn_area_id cfg)
                    (raw.non_mbsfn_region_length cfg) (srsran.data_mcs p),
                  Z.of_nat i)
        else pmch_loop_m fuel' sfn sf (S i) cfg area
      else mret (cfg, area)
  end.

(** [Phy::mbsfn_config_for_tti], statement by statement. [stack] is what
    the memory of the local [cfg] holds when the function is entered. *)
Definition mbsfn_config_for_tti_m (stack : raw.srsran_mbsfn_cfg_t)
    (tti area : Z) : PhyM (raw.srsran_mbsfn_cfg_t * Z) :=
  let cfg0 := raw.mk false false (raw.mbsfn_area_id stack)
                (raw.non_mbsfn_region_length stack) (raw.mbsfn_mcs stack) in
  configured ← member _mcch_configured;
  if negb configured then mret (cfg0, area)
  else
    let sfn := tti / 10 in
    let sf := tti mod 10 in
    aid ← member (fun s => srsran.mbsfn_area_id
                    (srsran.mbsfn_area_info_list_0 (_sib13 s)));
    len ← member (fun s => srsran.non_mbsfn_region_len
                    (srsran.mbsfn_area_info_list_0 (_sib13 s)));
    let cfg1 := raw.mk false false aid len (raw.mbsfn_mcs stack) in
    period ← member (fun s => srsran.mcch_repeat_period
                       (srsran.mcch_cfg
                          (srsran.mbsfn_area_info_list_0 (_sib13 s))));
    r ← liftM (umod sfn period);
    offset ← member (fun s => srsran.mcch_offset
                       (srsran.mcch_cfg
                          (srsran.mbsfn_area_info_list_0 (_sib13 s))));
    marked ← member (fun s => default 0 (_mcch_table s !! Z.to_nat sf));
    if (r =? offset) && (marked =? 1) then
      decoding ← member _decode_mcch;
      if (decoding : bool) then
        sig ← member (fun s => srsran.sig_mcs
                        (srsran.mcch_cfg
                           (srsran.mbsfn_area_info_list_0 (_sib13 s))));
        mret (raw.mk true true aid len sig, area)
      else mret (cfg1, area)
    else
      mch ← member _mch_configured;
      if (mch : bool) then
        aid' ← member (fun s => srsran.mbsfn_area_id
                         (srsran.mbsfn_area_info_list_0 (_sib13 s)));
        nof ← member (fun s => srsran.nof_pmch_info (_mcch s));
        pmch_loop_m (S nof) sfn sf 0%nat
          (raw.mk false false aid' len (raw.mbsfn_mcs stack)) area
      else mret (cfg1, area).

(** A run of calls, each with the stack content it finds, its TTI and the
    content of [area]. *)
Fixpoint run_calls_m (calls : list (raw.srsran_mbsfn_cfg_t * Z * Z))
    : PhyM (list (raw.srsran_mbsfn_cfg_t * Z)) :=
  match calls with
  | [] => mret []
  | (stack, tti, area) :: calls' =>
      r ← mbsfn_config_for_tti_m stack tti area;
      rs ← run_calls_m calls';
      mret (r :: rs)
  end.

(** Calls before, a call at [tti], calls between, a second call at [tti]:
    the two decisions. *)
Definition two_calls_m (before between : list (raw.srsran_mbsfn_cfg_t * Z * Z))
    (stack1 stack2 : raw.srsran_mbsfn_cfg_t) (tti area1 area2 : Z)
    : PhyM ((raw.srsran_mbsfn_cfg_t * Z) * (raw.srsran_mbsfn_cfg_t * Z)) :=
  _ ← run_calls_m before;
  r1 ← mbsfn_config_for_tti_m stack1 tti area1;
  _ ← run_calls_m between;
  r2 ← mbsfn_config_for_tti_m stack2 tti area2;
  mret (r1, r2).

(** The struct returned when the function has assigned the fields of [cfg]
    that are not [None] over the stack content [stack]. *)
Definition fill (stack : raw.srsran_mbsfn_cfg_t) (cfg : srsran_mbsfn_cfg_t)
    : raw.srsran_mbsfn_cfg_t :=
  raw.mk (enable cfg) (is_mcch cfg)
         (default (raw.mbsfn_area_id stack) (mbsfn_area_id cfg))
         (default (raw.non_mbsfn_region_length stack) (non_mbsfn_region_length cfg))
         (default (raw.mbsfn_mcs stack) (mbsfn_mcs cfg)).

(** [set_decode_mcch] as a computation: it assigns to [_decode_mcch]. *)
Definition set_decode_mcch_m (d : bool) : PhyM unit :=
  assign (fun s => set_decode_mcch s d).

(** What a call of a run returns, in terms of the object the run started
    from. *)
Definition call_result (phy : Phy) (c : raw.srsran_mbsfn_cfg_t * Z * Z)
    (r : raw.srsran_mbsfn_cfg_t * Z) : Prop :=
  exists cfg a,
    mbsfn_config_for_tti phy (snd (fst c)) (snd c) = Some (cfg, a) /\
    r = (fill (fst (fst c)) cfg, a).

(** Stack contents that differ in the byte of [mbsfn_mcs]. *)
Definition stack_0 : raw.srsran_mbsfn_cfg_t := raw.mk false false 0 0 0.
Definition stack_254 : raw.srsran_mbsfn_cfg_t := raw.mk false false 0 0 254.

(** * Properties *)

(** ** Subframe classifier *)

Lemma mod10_cases (tti : Z) :
  tti mod 10 = 0 \/ tti mod 10 = 1 \/ tti mod 10 = 2 \/ tti mod 10 = 3 \/
  tti mod 10 = 4 \/ tti mod 10 = 5 \/ tti mod 10 = 6 \/ tti mod 10 = 7 \/
  tti mod 10 = 8 \/ tti mod 10 = 9.
Proof. pose proof (Z.mod_pos_bound tti 10). lia. Qed.

Lemma cas_mbsfn_disjoint (phy : Phy) (tti : Z) :
  is_cas_subframe phy tti = true -> is_mbsfn_subframe phy tti = false.
Proof.
  unfold is_mbsfn_subframe. intros ->.
  destruct (mbms_dedicated (_cell phy)); reflexivity.
Qed.

(** C2. In a multicast-dedicated cell a subframe is CAS iff [tti mod 40 = 0]
    and MBSFN iff [tti mod 40 <> 0]; in a mixed cell it is CAS iff
    [tti mod 10] is one of 0, 4, 5, 9 and MBSFN iff it is not CAS and
    [tti mod 10] is one of 1, 2, 3, 6, 7, 8; and for every TTI exactly one
    of CAS, MBSFN, neither holds. *)
Theorem classifier_exact (phy : Phy) (tti : Z) :
  (mbms_dedicated (_cell phy) = true ->
     (is_cas_subframe phy tti = true <-> tti mod 40 = 0) /\
     (is_mbsfn_subframe phy tti = true <-> tti mod 40 <> 0)) /\
  (mbms_dedicated (_cell phy) = false ->
     (is_cas_subframe phy tti = true <->
        tti mod 10 = 0 \/ tti mod 10 = 4 \/ tti mod 10 = 5 \/ tti mod 10 = 9) /\
     (is_mbsfn_subframe phy tti = true <->
        is_cas_subframe phy tti = false /\
        (tti mod 10 = 1 \/ tti mod 10 = 2 \/ tti mod 10 = 3 \/
         tti mod 10 = 6 \/ tti mod 10 = 7 \/ tti mod 10 = 8))) /\
  ((is_cas_subframe phy tti = true /\ is_mbsfn_subframe phy tti = false) \/
   (is_cas_subframe phy tti = false /\ is_mbsfn_subframe phy tti = true) \/
   (is_cas_subframe phy tti = false /\ is_mbsfn_subframe phy tti = false)).
Proof.
  split; [|split].
  - intros Hd. unfold is_mbsfn_subframe, is_cas_subframe. rewrite Hd.
    split.
    + apply Z.eqb_eq.
    + rewrite negb_true_iff. apply Z.eqb_neq.
  - intros Hd. unfold is_mbsfn_subframe, is_cas_subframe. rewrite Hd.
    destruct (mod10_cases tti) as [H|[H|[H|[H|[H|[H|[H|[H|[H|H]]]]]]]]];
      rewrite H; cbn; intuition (try discriminate; try lia).
  - destruct (is_cas_subframe phy tti) eqn:Hc.
    + left. split; [reflexivity | now apply cas_mbsfn_disjoint].
    + destruct (is_mbsfn_subframe phy tti); [right; left | right; right]; easy.
Qed.

(** C2 on the mixed cell of the scenarios: [tti = 4] is CAS and [tti = 1]
    is MBSFN. *)
Lemma classifier_exact_witness :
  is_cas_subframe (phy_scenario false chans_one) 4 = true /\
  is_mbsfn_subframe (phy_scenario false chans_one) 1 = true.
Proof.
  split.
  - apply (proj2 (proj1 (proj1 (proj2
             (classifier_exact (phy_scenario false chans_one) 4)) eq_refl))).
    right; left; reflexivity.
  - apply (proj2 (proj2 (proj1 (proj2
             (classifier_exact (phy_scenario false chans_one) 1)) eq_refl))).
    split; [reflexivity | left; reflexivity].
Defined.

(** ** Unsigned arithmetic of the allocation index *)

Lemma umod_nonzero (a b : Z) : b <> 0 -> umod a b = Some (a mod b).
Proof. unfold umod. intros H. destruct (Z.eqb_spec b 0); congruence. Qed.

Lemma sf_idx_of_wrap (dedicated : bool) (fn sf : Z) :
  sf_idx_of dedicated fn sf = wrap32 (alloc_index_spec dedicated fn sf).
Proof.
  unfold sf_idx_of, alloc_index_spec, sub32, add32, mul32, wrap32.
  destruct dedicated.
  - rewrite Zminus_mod_idemp_l.
    replace (((fn * 10) mod 2 ^ 32 + sf) mod 2 ^ 32 - fn / 4 - 1)
      with (((fn * 10) mod 2 ^ 32 + sf) mod 2 ^ 32 - (fn / 4 + 1)) by lia.
    rewrite Zminus_mod_idemp_l.
    replace ((fn * 10) mod 2 ^ 32 + sf - (fn / 4 + 1))
      with ((fn * 10) mod 2 ^ 32 + (sf - (fn / 4 + 1))) by lia.
    rewrite Zplus_mod_idemp_l. f_equal. lia.
  - rewrite <- Zplus_mod. reflexivity.
Qed.

Lemma alloc_index_spec_range (dedicated : bool) (fn sf : Z) :
  0 <= fn < 2 ^ 16 -> 0 <= sf <= 9 -> ~ (fn = 0 /\ sf = 0) ->
  0 <= alloc_index_spec dedicated fn sf < 2 ^ 32.
Proof.
  intros Hfn Hsf Hne. unfold alloc_index_spec.
  assert (0 <= fn / 4 <= fn).
  { split; [apply Z.div_pos; lia|]. apply Z.div_le_upper_bound; lia. }
  assert (fn = 0 -> fn / 4 = 0) by (intros ->; reflexivity).
  destruct dedicated.
  - assert (fn / 4 * 4 <= fn) by (pose proof (Z.mul_div_le fn 4); lia).
    lia.
  - destruct (Z.ltb_spec sf 6); lia.
Qed.

Lemma sf_idx_of_exact (dedicated : bool) (fn sf : Z) :
  0 <= fn < 2 ^ 16 -> 0 <= sf <= 9 -> ~ (fn = 0 /\ sf = 0) ->
  sf_idx_of dedicated fn sf = alloc_index_spec dedicated fn sf.
Proof.
  intros. rewrite sf_idx_of_wrap. unfold wrap32.
  apply Z.mod_small. now apply alloc_index_spec_range.
Qed.

Lemma sf_idx_of_underflow (dedicated : bool) :
  sf_idx_of dedicated 0 0 = 2 ^ 32 - 1.
Proof. destruct dedicated; reflexivity. Qed.

Lemma period_frame_range (sfn period : Z) :
  0 < period < 2 ^ 16 -> 0 <= sfn mod period < 2 ^ 16.
Proof. intros H. pose proof (Z.mod_pos_bound sfn period). lia. Qed.

Lemma subframe_range (tti : Z) : 0 <= tti mod 10 <= 9.
Proof. pose proof (Z.mod_pos_bound tti 10). lia. Qed.

(** ** The loop over the channels *)

Section Scan.

Variables (dedicated : bool) (sig : Z) (all : list srsran.pmch_info_t).
Variables (sfn sf : Z).

Local Abbreviation scan := (pmch_scan dedicated sig all sfn sf).
Local Abbreviation skipped := (chan_skipped dedicated sfn sf).

Lemma pmch_scan_cons (i : nat) (p : srsran.pmch_info_t) rest :
  srsran.mch_sched_period p <> 0 ->
  scan i (p :: rest) =
    if chan_idx dedicated sfn sf p <=? srsran.sf_alloc_end p
    then Some (Some (i, chan_mcs dedicated sig all sfn sf i p))
    else scan (S i) rest.
Proof.
  intros Hp. unfold scan, chan_mcs, chan_idx. cbn [pmch_scan].
  rewrite (umod_nonzero _ _ Hp). cbn.
  destruct (_ <=? _); [|reflexivity].
  destruct (is_sig_subframe _ _ _ _ _); reflexivity.
Qed.

Lemma pmch_scan_cons_fault (i : nat) (p : srsran.pmch_info_t) rest :
  srsran.mch_sched_period p = 0 -> scan i (p :: rest) = None.
Proof.
  intros Hp. unfold scan. cbn [pmch_scan]. unfold umod. rewrite Hp.
  reflexivity.
Qed.

(** No window holds the subframe: the loop runs to its end. *)
Lemma pmch_scan_none (i : nat) rest :
  Forall skipped rest -> scan i rest = Some None.
Proof.
  intros H. revert i. induction H as [|p rest [Hp Hlt] _ IH]; intros i.
  - reflexivity.
  - rewrite pmch_scan_cons by exact Hp.
    destruct (Z.leb_spec (chan_idx dedicated sfn sf p) (srsran.sf_alloc_end p));
      [lia | apply IH].
Qed.

(** The loop stops at the first channel whose window holds the
    subframe, whatever comes after it. *)
Lemma pmch_scan_first (i : nat) pre p post :
  Forall skipped pre ->
  srsran.mch_sched_period p <> 0 ->
  chan_idx dedicated sfn sf p <= srsran.sf_alloc_end p ->
  scan i (pre ++ p :: post) =
    Some (Some ((i + length pre)%nat,
                chan_mcs dedicated sig all sfn sf (i + length pre) p)).
Proof.
  intros H Hp Hle. revert i. induction H as [|q pre [Hq Hlt] _ IH]; intros i.
  - cbn [app length]. rewrite pmch_scan_cons by exact Hp.
    rewrite Nat.add_0_r.
    destruct (Z.leb_spec (chan_idx dedicated sfn sf p) (srsran.sf_alloc_end p));
      [reflexivity | lia].
  - cbn [app length]. rewrite pmch_scan_cons by exact Hq.
    destruct (Z.leb_spec (chan_idx dedicated sfn sf q) (srsran.sf_alloc_end q));
      [lia|].
    rewrite IH.
    replace (S i + length pre)%nat with (i + S (length pre))%nat by lia.
    reflexivity.
Qed.

(** What a result of the loop says about the channels. *)
Lemma pmch_scan_inv (i : nat) rest r :
  scan i rest = Some r ->
  match r with
  | None => Forall skipped rest
  | Some (k, mcs) =>
      exists pre p post,
        rest = pre ++ p :: post /\ k = (i + length pre)%nat /\
        Forall skipped pre /\
        srsran.mch_sched_period p <> 0 /\
        chan_idx dedicated sfn sf p <= srsran.sf_alloc_end p /\
        mcs = chan_mcs dedicated sig all sfn sf k p
  end.
Proof.
  revert i r. induction rest as [|p rest IH]; intros i r.
  - intros [= <-]. constructor.
  - destruct (Z.eq_dec (srsran.mch_sched_period p) 0) as [Hz|Hnz].
    { rewrite pmch_scan_cons_fault by exact Hz. discriminate. }
    rewrite pmch_scan_cons by exact Hnz.
    destruct (Z.leb_spec (chan_idx dedicated sfn sf p) (srsran.sf_alloc_end p))
      as [Hle|Hgt].
    + intros [= <-]. exists [], p, rest. cbn [app length].
      rewrite Nat.add_0_r. repeat split; auto.
    + intros Hs. specialize (IH _ _ Hs). destruct r as [[k mcs]|].
      * destruct IH as (pre & q & post & -> & -> & Hpre & Hq & Hle & ->).
        exists (p :: pre), q, post. cbn [app length].
        replace (i + S (length pre))%nat with (S i + length pre)%nat by lia.
        repeat split; auto. constructor; [split|]; auto.
      * constructor; [split|]; auto.
Qed.

(** The loop ends without a fault when no period is zero. *)
Lemma pmch_scan_total (i : nat) rest :
  Forall (fun p => srsran.mch_sched_period p <> 0) rest ->
  exists r, scan i rest = Some r.
Proof.
  intros H. revert i. induction H as [|p rest Hp _ IH]; intros i.
  - eexists. reflexivity.
  - rewrite pmch_scan_cons by exact Hp.
    destruct (_ <=? _); [eexists; reflexivity | apply IH].
Qed.

End Scan.

(** ** The scheduling function, branch by branch *)

Lemma config_unconfigured (phy : Phy) (tti area : Z) :
  _mcch_configured phy = false ->
  mbsfn_config_for_tti phy tti area = Some (cfg_init, area).
Proof. unfold mbsfn_config_for_tti. intros ->. reflexivity. Qed.

Lemma config_mcch_slot (phy : Phy) (tti area : Z) :
  _mcch_configured phy = true ->
  srsran.mcch_repeat_period (srsran.mcch_cfg (area_info phy)) <> 0 ->
  mcch_slot phy tti = true ->
  mbsfn_config_for_tti phy tti area =
    Some (if _decode_mcch phy
          then mk_cfg true true (Some (srsran.mbsfn_area_id (area_info phy)))
                 (Some (srsran.non_mbsfn_region_len (area_info phy)))
                 (Some (srsran.sig_mcs (srsran.mcch_cfg (area_info phy))))
          else mk_cfg false false (Some (srsran.mbsfn_area_id (area_info phy)))
                 (Some (srsran.non_mbsfn_region_len (area_info phy))) None,
          area).
Proof.
  unfold mbsfn_config_for_tti, mcch_slot, area_info. intros -> Hp Hs.
  cbn [negb]. rewrite (umod_nonzero _ _ Hp). cbn. rewrite Hs.
  destruct (_decode_mcch phy); reflexivity.
Qed.

Lemma config_channel_check (phy : Phy) (tti area : Z) :
  srsran.mcch_repeat_period (srsran.mcch_cfg (area_info phy)) <> 0 ->
  reaches_channel_check phy tti ->
  mbsfn_config_for_tti phy tti area =
    m ← pmch_scan (mbms_dedicated (_cell phy))
          (srsran.sig_mcs (srsran.mcch_cfg (area_info phy)))
          (channels phy) (tti / 10) (tti mod 10) 0%nat (channels phy);
    Some (match m with
          | Some (i, mcs) =>
              (mk_cfg true false (Some (srsran.mbsfn_area_id (area_info phy)))
                 (Some (srsran.non_mbsfn_region_len (area_info phy))) (Some mcs),
               Z.of_nat i)
          | None =>
              (mk_cfg false false (Some (srsran.mbsfn_area_id (area_info phy)))
                 (Some (srsran.non_mbsfn_region_len (area_info phy))) None,
               area)
          end).
Proof.
  unfold mbsfn_config_for_tti, reaches_channel_check, mcch_slot, area_info, channels.
  intros Hp (-> & Hs & ->).
  cbn [negb]. rewrite (umod_nonzero _ _ Hp). cbn. rewrite Hs.
  destruct (pmch_scan _ _ _ _ _ _ _) as [[[i mcs]|]|]; reflexivity.
Qed.

Lemma config_no_message (phy : Phy) (tti area : Z) :
  _mcch_configured phy = true ->
  srsran.mcch_repeat_period (srsran.mcch_cfg (area_info phy)) <> 0 ->
  mcch_slot phy tti = false ->
  _mch_configured phy = false ->
  mbsfn_config_for_tti phy tti area =
    Some (mk_cfg false false (Some (srsran.mbsfn_area_id (area_info phy)))
            (Some (srsran.non_mbsfn_region_len (area_info phy))) None, area).
Proof.
  unfold mbsfn_config_for_tti, mcch_slot, area_info. intros -> Hp Hs ->.
  cbn [negb]. rewrite (umod_nonzero _ _ Hp). cbn. rewrite Hs. reflexivity.
Qed.

Lemma sched_ok_periods (phy : Phy) : sched_ok phy -> periods_ok phy.
Proof.
  intros [Hr Hc]. split; [lia|].
  eapply Forall_impl; [exact Hc|].
  intros p [_ Hp]. lia.
Qed.

(** Windows before index [i] that do not hold the subframe, read off the
    list by position. *)
Lemma skipped_prefix (dedicated : bool) (sfn sf : Z)
    (chans : list srsran.pmch_info_t) (i : nat) :
  Forall (fun p => srsran.mch_sched_period p <> 0) chans ->
  (forall j q, (j < i)%nat -> chans !! j = Some q ->
     srsran.sf_alloc_end q < chan_idx dedicated sfn sf q) ->
  Forall (chan_skipped dedicated sfn sf) (take i chans).
Proof.
  intros Hp H. apply Forall_lookup. intros j q Hq.
  apply lookup_take_Some in Hq as [Hq Hj].
  split; [|now apply (H j)].
  rewrite Forall_lookup in Hp. now apply (Hp j).
Qed.

(** ** Multicast-channel check *)

(** C1, as amended. For a TTI that reaches the multicast-channel check, with
    [sfn = tti / 10], [sf = tti mod 10] and [periodFrame = sfn mod
    schedulingPeriod(i)]: the allocation index of channel [i] is the
    specification's formula, evaluated in the 32-bit unsigned arithmetic of
    the code (it is the formula's integer value except at
    [periodFrame = 0], [sf = 0]); the TTI goes to the first channel in
    declared order whose index is at most its [sf_alloc_end], whatever
    channels follow; with no such channel the decision is disabled and
    [area] is left alone. With one channel of period 32 and
    [sf_alloc_end = 9] in a dedicated cell, [tti = 11] has index 10 and is
    not given to channel 0. *)
Theorem channel_assignment (phy : Phy) (tti area : Z) :
  is_u32 tti -> sched_ok phy -> reaches_channel_check phy tti ->
  let dedicated := mbms_dedicated (_cell phy) in
  let sfn := tti / 10 in
  let sf := tti mod 10 in
  (forall p, p ∈ channels phy ->
     let periodFrame := sfn mod srsran.mch_sched_period p in
     chan_idx dedicated sfn sf p =
       wrap32 (alloc_index_spec dedicated periodFrame sf) /\
     (~ (periodFrame = 0 /\ sf = 0) ->
      chan_idx dedicated sfn sf p = alloc_index_spec dedicated periodFrame sf)) /\
  (forall (i : nat) p,
     channels phy !! i = Some p ->
     chan_idx dedicated sfn sf p <= srsran.sf_alloc_end p ->
     (forall (j : nat) q, (j < i)%nat -> channels phy !! j = Some q ->
        srsran.sf_alloc_end q < chan_idx dedicated sfn sf q) ->
     exists cfg,
       mbsfn_config_for_tti phy tti area = Some (cfg, Z.of_nat i) /\
       enable cfg = true /\ is_mcch cfg = false) /\
  ((forall (j : nat) q, channels phy !! j = Some q ->
      srsran.sf_alloc_end q < chan_idx dedicated sfn sf q) ->
   exists cfg,
     mbsfn_config_for_tti phy tti area = Some (cfg, area) /\
     enable cfg = false /\ is_mcch cfg = false) /\
  (dedicated = true -> tti = 11 ->
   forall p, channels phy = [p] -> srsran.mch_sched_period p = 32 ->
     srsran.sf_alloc_end p = 9 ->
     chan_idx dedicated sfn sf p = 10 /\
     exists cfg,
       mbsfn_config_for_tti phy tti area = Some (cfg, area) /\
       enable cfg = false).
Proof.
  intros Htti Hok Hreach dedicated sfn sf.
  pose proof (sched_ok_periods _ Hok) as [Hrp Hcp].
  fold (area_info phy) in Hrp. fold (channels phy) in Hcp.
  pose proof (config_channel_check phy tti area Hrp Hreach) as Hcfg.
  fold dedicated sfn sf in Hcfg.
  assert (Hnone : (forall (j : nat) q, channels phy !! j = Some q ->
             srsran.sf_alloc_end q < chan_idx dedicated sfn sf q) ->
          exists cfg,
            mbsfn_config_for_tti phy tti area = Some (cfg, area) /\
            enable cfg = false /\ is_mcch cfg = false).
  { intros Hall. rewrite Hcfg, pmch_scan_none.
    - eexists. split; [reflexivity|]. split; reflexivity.
    - apply Forall_lookup. intros j q Hq. split; [|now apply (Hall j)].
      rewrite Forall_lookup in Hcp. now apply (Hcp j). }
  split; [|split; [|split]].
  - intros p Hp periodFrame. unfold chan_idx. fold periodFrame.
    split; [apply sf_idx_of_wrap|].
    intros Hne. apply sf_idx_of_exact; [|apply subframe_range|exact Hne].
    apply period_frame_range.
    destruct Hok as [_ Hc]. rewrite Forall_forall in Hc.
    destruct (Hc p Hp) as [_ Hper]. exact Hper.
  - intros i p Hi Hle Hbefore.
    pose proof (pmch_scan_first dedicated
                  (srsran.sig_mcs (srsran.mcch_cfg (area_info phy)))
                  (channels phy) sfn sf 0 (take i (channels phy)) p
                  (drop (S i) (channels phy))) as Hfirst.
    rewrite (take_drop_middle _ _ _ Hi) in Hfirst.
    rewrite length_take_le in Hfirst by (apply lookup_lt_Some in Hi; lia).
    rewrite Hcfg, Hfirst.
    + cbn. eexists. split; [reflexivity|]. split; reflexivity.
    + now apply skipped_prefix.
    + rewrite Forall_lookup in Hcp. now apply (Hcp i).
    + exact Hle.
  - exact Hnone.
  - intros Hd -> p Hch Hper Hend.
    assert (Hidx : chan_idx dedicated sfn sf p = 10).
    { unfold chan_idx, sfn, sf. rewrite Hper, Hd. reflexivity. }
    split; [exact Hidx|].
    destruct Hnone as (cfg & Hc & He & _).
    + intros j q. rewrite Hch. destruct j as [|j]; [|discriminate].
      intros [= <-]. lia.
    + exists cfg. split; assumption.
Qed.

(** C1, on the scenario of the specification: the dedicated cell with one
    channel of period 32 and [sf_alloc_end = 9], at [tti = 11]. *)
Lemma channel_assignment_witness :
  is_u32 11 /\ sched_ok (phy_scenario true chans_one) /\
  reaches_channel_check (phy_scenario true chans_one) 11 /\
  exists cfg,
    mbsfn_config_for_tti (phy_scenario true chans_one) 11 0 = Some (cfg, 0) /\
    enable cfg = false.
Proof.
  assert (H1 : is_u32 11) by (unfold is_u32; lia).
  assert (H2 : sched_ok (phy_scenario true chans_one)).
  { split; [vm_compute; split; reflexivity|].
    repeat constructor; vm_compute; congruence. }
  assert (H3 : reaches_channel_check (phy_scenario true chans_one) 11).
  { repeat split. }
  repeat (split; [assumption|]).
  pose proof (channel_assignment (phy_scenario true chans_one) 11 0 H1 H2 H3)
    as (_ & _ & _ & Hs).
  destruct (Hs eq_refl eq_refl (srsran.mk_pmch 9 10 32 []) eq_refl eq_refl eq_refl)
    as (_ & cfg & Hc & He).
  exists cfg. split; assumption.
Defined.

(** C1 as stated, with the index read over the integers, fails at
    subframe 0 of frame 0 of a scheduling period: in the dedicated cell with
    one channel of period 32 and [sf_alloc_end = 9] and an MCCH table that
    does not mark subframe 0, [tti = 0] reaches the channel check, the
    formula gives [0*10 + 0 - 0 - 1 = -1 <= 9], and yet the decision is
    disabled: the code computes the index in [unsigned], where it is
    [2^32 - 1]. *)
Lemma channel_assignment_counterexample :
  reaches_channel_check (phy_unmarked true chans_one) 0 /\
  channels (phy_unmarked true chans_one) = [srsran.mk_pmch 9 10 32 []] /\
  alloc_index_spec true ((0 / 10) mod 32) (0 mod 10) = -1 /\
  alloc_index_spec true ((0 / 10) mod 32) (0 mod 10)
    <= srsran.sf_alloc_end (srsran.mk_pmch 9 10 32 []) /\
  chan_idx true (0 / 10) (0 mod 10) (srsran.mk_pmch 9 10 32 []) = 2 ^ 32 - 1 /\
  mbsfn_config_for_tti (phy_unmarked true chans_one) 0 5 =
    Some (mk_cfg false false (Some 1) (Some 1) None, 5).
Proof.
  split; [repeat split|].
  split; [reflexivity|]. split; [reflexivity|].
  split; [vm_compute; congruence|].
  split; reflexivity.
Qed.

(** ** MCCH subframe *)

(** C3. With MCCH configured, when [(tti/10) mod mcch_repeat_period =
    mcch_offset] and the MCCH table holds 1 at subframe [tti mod 10], the
    subframe is treated as MCCH: with decoding enabled the decision is
    enabled, flagged MCCH, and carries the signalling coding scheme and the
    SIB13 area id; with decoding disabled the decision is disabled and no
    channel is looked at ([area] is untouched, whatever the channels are).
    With period 32, offset 0, table entry 1 at subframe 0 and decoding
    enabled, [tti = 0] is enabled and flagged MCCH. *)
Theorem mcch_subframe (phy : Phy) (area : Z) :
  _mcch_configured phy = true ->
  let mc := srsran.mcch_cfg (area_info phy) in
  (forall tti, is_u32 tti ->
     srsran.mcch_repeat_period mc <> 0 ->
     (tti / 10) mod srsran.mcch_repeat_period mc = srsran.mcch_offset mc ->
     _mcch_table phy !! Z.to_nat (tti mod 10) = Some 1 ->
     (_decode_mcch phy = true ->
      exists cfg,
        mbsfn_config_for_tti phy tti area = Some (cfg, area) /\
        enable cfg = true /\ is_mcch cfg = true /\
        mbsfn_mcs cfg = Some (srsran.sig_mcs mc) /\
        mbsfn_area_id cfg = Some (srsran.mbsfn_area_id (area_info phy))) /\
     (_decode_mcch phy = false ->
      exists cfg,
        mbsfn_config_for_tti phy tti area = Some (cfg, area) /\
        enable cfg = false /\ is_mcch cfg = false)) /\
  (srsran.mcch_repeat_period mc = 32 -> srsran.mcch_offset mc = 0 ->
   _mcch_table phy !! 0%nat = Some 1 -> _decode_mcch phy = true ->
   exists cfg,
     mbsfn_config_for_tti phy 0 area = Some (cfg, area) /\
     enable cfg = true /\ is_mcch cfg = true).
Proof.
  intros Hconf mc.
  assert (Hgen : forall tti,
     srsran.mcch_repeat_period mc <> 0 ->
     (tti / 10) mod srsran.mcch_repeat_period mc = srsran.mcch_offset mc ->
     _mcch_table phy !! Z.to_nat (tti mod 10) = Some 1 ->
     mcch_slot phy tti = true).
  { intros tti _ Hslot Htab. unfold mcch_slot. fold (area_info phy). fold mc.
    rewrite Hslot, Htab, Z.eqb_refl. reflexivity. }
  split.
  - intros tti _ Hp Hslot Htab.
    pose proof (config_mcch_slot phy tti area Hconf Hp (Hgen tti Hp Hslot Htab))
      as Hcfg.
    split; intros Hdec; rewrite Hdec in Hcfg; eexists;
      (split; [exact Hcfg|]); repeat split.
  - intros Hper Hoff Htab Hdec.
    assert (Hp : srsran.mcch_repeat_period mc <> 0) by lia.
    assert (Hs : mcch_slot phy 0 = true).
    { apply Hgen; [exact Hp| |exact Htab]. rewrite Hper, Hoff. reflexivity. }
    pose proof (config_mcch_slot phy 0 area Hconf Hp Hs) as Hcfg.
    rewrite Hdec in Hcfg. eexists. split; [exact Hcfg|]. split; reflexivity.
Qed.

(** C3 on the scenario of the specification, at [tti = 0]. *)
Lemma mcch_subframe_witness :
  _mcch_configured (phy_scenario true chans_one) = true /\
  exists cfg,
    mbsfn_config_for_tti (phy_scenario true chans_one) 0 5 = Some (cfg, 5) /\
    enable cfg = true /\ is_mcch cfg = true.
Proof.
  split; [reflexivity|].
  exact (proj2 (mcch_subframe (phy_scenario true chans_one) 5 eq_refl)
           eq_refl eq_refl eq_refl eq_refl).
Defined.

(** ** Signalling or data coding scheme *)

Lemma is_sig_subframe_spec (all : list srsran.pmch_info_t) (i : nat)
    (fn sf idx : Z) :
  is_sig_subframe all i fn sf idx = true <->
  (i = 0%nat /\ fn = 0 /\ sf = 1) \/
  ((0 < i)%nat /\
   exists prev, all !! (i - 1)%nat = Some prev /\
                srsran.sf_alloc_end prev + 1 = idx).
Proof.
  unfold is_sig_subframe.
  rewrite orb_true_iff, !andb_true_iff, Nat.eqb_eq, !Z.eqb_eq, Nat.ltb_lt.
  split; (intros [H|[Hi H]]; [left; tauto | right; split; [exact Hi|]]).
  - destruct (all !! (i - 1)%nat) as [prev|]; [|discriminate].
    exists prev. split; [reflexivity | now apply Z.eqb_eq].
  - destruct H as (prev & -> & H). now apply Z.eqb_eq.
Qed.

(** A window that holds the subframe excludes the wrapped index, so the
    index is the integer value of the specification's formula. *)
Lemma chan_idx_in_window (dedicated : bool) (sfn sf0 : Z) (p : srsran.pmch_info_t) :
  pmch_ok p -> 0 <= sf0 <= 9 ->
  chan_idx dedicated sfn sf0 p <= srsran.sf_alloc_end p ->
  chan_idx dedicated sfn sf0 p =
    alloc_index_spec dedicated (sfn mod srsran.mch_sched_period p) sf0.
Proof.
  intros [Hend Hper] Hsf Hle. unfold chan_idx in *.
  apply sf_idx_of_exact; [now apply period_frame_range | exact Hsf |].
  intros [Hfn ->]. rewrite Hfn, sf_idx_of_underflow in Hle.
  unfold is_u16 in Hend. lia.
Qed.

(** An enabled decision that is not MCCH comes out of the loop. *)
Lemma config_assigned_inv (phy : Phy) (tti area : Z)
    (cfg : srsran_mbsfn_cfg_t) (area' : Z) :
  mbsfn_config_for_tti phy tti area = Some (cfg, area') ->
  enable cfg = true -> is_mcch cfg = false ->
  reaches_channel_check phy tti /\
  exists (i : nat) mcs,
    pmch_scan (mbms_dedicated (_cell phy))
      (srsran.sig_mcs (srsran.mcch_cfg (area_info phy)))
      (channels phy) (tti / 10) (tti mod 10) 0%nat (channels phy)
      = Some (Some (i, mcs)) /\
    area' = Z.of_nat i /\ mbsfn_mcs cfg = Some mcs.
Proof.
  intros Hres Hen Hmc.
  destruct (_mcch_configured phy) eqn:Hconf.
  2:{ rewrite config_unconfigured in Hres by exact Hconf.
      injection Hres as <- <-. discriminate. }
  destruct (Z.eq_dec (srsran.mcch_repeat_period (srsran.mcch_cfg (area_info phy))) 0)
    as [Hz|Hnz].
  { unfold mbsfn_config_for_tti in Hres. rewrite Hconf in Hres.
    fold (area_info phy) in Hres. unfold umod in Hres. rewrite Hz in Hres.
    discriminate. }
  destruct (mcch_slot phy tti) eqn:Hslot.
  { rewrite (config_mcch_slot _ _ _ Hconf Hnz Hslot) in Hres.
    destruct (_decode_mcch phy); injection Hres as <- <-; discriminate. }
  destruct (_mch_configured phy) eqn:Hmch.
  2:{ rewrite (config_no_message _ _ _ Hconf Hnz Hslot Hmch) in Hres.
      injection Hres as <- <-. discriminate. }
  assert (Hreach : reaches_channel_check phy tti) by (repeat split; assumption).
  split; [exact Hreach|].
  rewrite (config_channel_check _ _ _ Hnz Hreach) in Hres.
  destruct (pmch_scan _ _ _ _ _ _ _) as [[[i mcs]|]|]; cbn in Hres;
    [|injection Hres as <- <-; discriminate|discriminate].
  injection Hres as <- <-. exists i, mcs. repeat split.
Qed.

(** C4. When the TTI is assigned to channel [i], the coding scheme returned
    is the signalling coding scheme when [i = 0], [periodFrame = 0] and
    [sf = 1], or when [i > 0] and the allocation index is
    [sf_alloc_end(i-1) + 1]; for every other subframe of the window it is
    the data coding scheme of channel [i]. (Where the two schemes differ,
    the signalling scheme is returned exactly in the first case.) *)
Theorem coding_scheme_choice (phy : Phy) (tti area : Z)
    (cfg : srsran_mbsfn_cfg_t) (area' : Z) :
  is_u32 tti -> sched_ok phy ->
  mbsfn_config_for_tti phy tti area = Some (cfg, area') ->
  enable cfg = true -> is_mcch cfg = false ->
  exists (i : nat) p,
    channels phy !! i = Some p /\ area' = Z.of_nat i /\
    let periodFrame := (tti / 10) mod srsran.mch_sched_period p in
    let sf := tti mod 10 in
    let allocIndex := alloc_index_spec (mbms_dedicated (_cell phy)) periodFrame sf in
    let sig := srsran.sig_mcs (srsran.mcch_cfg (area_info phy)) in
    let signalling :=
      (i = 0%nat /\ periodFrame = 0 /\ sf = 1) \/
      ((0 < i)%nat /\
       exists prev, channels phy !! (i - 1)%nat = Some prev /\
                    allocIndex = srsran.sf_alloc_end prev + 1) in
    allocIndex <= srsran.sf_alloc_end p /\
    (signalling -> mbsfn_mcs cfg = Some sig) /\
    (~ signalling -> mbsfn_mcs cfg = Some (srsran.data_mcs p)) /\
    (sig <> srsran.data_mcs p -> (mbsfn_mcs cfg = Some sig <-> signalling)).
Proof.
  intros Htti Hok Hres Hen Hmc.
  destruct (config_assigned_inv _ _ _ _ _ Hres Hen Hmc)
    as (_ & i & mcs & Hscan & -> & Hmcs).
  apply pmch_scan_inv in Hscan.
  destruct Hscan as (pre & p & post & Hch & Hi & _ & _ & Hle & ->).
  cbn in Hi. subst i.
  assert (Hlook : channels phy !! length pre = Some p).
  { rewrite Hch. apply list_lookup_middle. reflexivity. }
  assert (Hpok : pmch_ok p).
  { destruct Hok as [_ Hc]. rewrite Forall_forall in Hc. apply Hc.
    fold (channels phy). apply list_elem_of_lookup. eauto. }
  pose proof (chan_idx_in_window _ _ _ _ Hpok (subframe_range tti) Hle) as Hidx.
  exists (length pre), p. split; [exact Hlook|]. split; [reflexivity|].
  intros periodFrame sf allocIndex sig signalling.
  fold periodFrame sf allocIndex in Hidx.
  assert (Hsig : is_sig_subframe (channels phy) (length pre) periodFrame sf
                   (chan_idx (mbms_dedicated (_cell phy)) (tti / 10) sf p) = true
                 <-> signalling).
  { rewrite is_sig_subframe_spec, Hidx. unfold signalling.
    split; (intros [H|[Hi (prev & Hp & He)]]; [left; exact H|right]);
      (split; [exact Hi|]); exists prev; (split; [exact Hp|]); lia. }
  rewrite Hmcs. unfold chan_mcs. fold periodFrame sf. fold sig.
  split; [rewrite <- Hidx; exact Hle|].
  destruct (is_sig_subframe _ _ _ _ _).
  - split; [reflexivity|]. split; [intros Hn; exfalso; apply Hn, Hsig; reflexivity|].
    intros _. split; [intros _; now apply Hsig | reflexivity].
  - assert (Hns : ~ signalling) by (intros Hs; apply Hsig in Hs; discriminate).
    split; [intros Hs; contradiction|]. split; [reflexivity|].
    intros Hne. split; [intros [= He]; congruence | intros Hs; contradiction].
Qed.

(** C4 on two channels with windows 0..9 and 10..19 in a dedicated cell:
    [tti = 11] has index 10, the subframe after the window of channel 0. *)
Lemma coding_scheme_choice_witness :
  is_u32 11 /\ sched_ok (phy_scenario true chans_two) /\
  mbsfn_config_for_tti (phy_scenario true chans_two) 11 0 =
    Some (mk_cfg true false (Some 1) (Some 1) (Some 2), 1) /\
  exists (i : nat) p,
    channels (phy_scenario true chans_two) !! i = Some p /\ 1 = Z.of_nat i.
Proof.
  assert (H1 : is_u32 11) by (unfold is_u32; lia).
  assert (H2 : sched_ok (phy_scenario true chans_two)).
  { split; [vm_compute; split; reflexivity|].
    repeat constructor; vm_compute; congruence. }
  assert (H3 : mbsfn_config_for_tti (phy_scenario true chans_two) 11 0 =
               Some (mk_cfg true false (Some 1) (Some 1) (Some 2), 1))
    by reflexivity.
  repeat (split; [assumption|]).
  destruct (coding_scheme_choice _ _ _ _ _ H1 H2 H3 eq_refl eq_refl)
    as (i & p & Hp & Hi & _).
  exists i, p. split; assumption.
Defined.

(** ** Totality *)

Lemma config_returns (phy : Phy) (tti area : Z) :
  periods_ok phy ->
  exists cfg area', mbsfn_config_for_tti phy tti area = Some (cfg, area').
Proof.
  intros [Hrp Hcp]. fold (area_info phy) in Hrp. fold (channels phy) in Hcp.
  destruct (_mcch_configured phy) eqn:Hconf.
  2:{ eexists _, _. now apply config_unconfigured. }
  destruct (mcch_slot phy tti) eqn:Hslot.
  { eexists _, _. now apply config_mcch_slot. }
  destruct (_mch_configured phy) eqn:Hmch.
  2:{ eexists _, _. now apply config_no_message. }
  rewrite config_channel_check by (repeat split; assumption).
  destruct (pmch_scan_total (mbms_dedicated (_cell phy))
              (srsran.sig_mcs (srsran.mcch_cfg (area_info phy)))
              (channels phy) (tti / 10) (tti mod 10) 0 _ Hcp) as [r ->].
  cbn. destruct r as [[i mcs]|]; eexists _, _; reflexivity.
Qed.

Lemma config_no_match (phy : Phy) (tti area : Z) :
  periods_ok phy ->
  mcch_slot phy tti = false ->
  (_mch_configured phy = false \/
   forall (j : nat) q, channels phy !! j = Some q ->
     srsran.sf_alloc_end q <
     chan_idx (mbms_dedicated (_cell phy)) (tti / 10) (tti mod 10) q) ->
  exists cfg,
    mbsfn_config_for_tti phy tti area = Some (cfg, area) /\
    enable cfg = false /\ is_mcch cfg = false.
Proof.
  intros [Hrp Hcp] Hslot Hno.
  fold (area_info phy) in Hrp. fold (channels phy) in Hcp.
  destruct (_mcch_configured phy) eqn:Hconf.
  2:{ exists cfg_init.
      split; [now apply config_unconfigured | split; reflexivity]. }
  destruct (_mch_configured phy) eqn:Hmch.
  2:{ eexists. split; [now apply config_no_message | split; reflexivity]. }
  destruct Hno as [Hno|Hno]; [discriminate|].
  rewrite config_channel_check by (repeat split; assumption).
  rewrite pmch_scan_none.
  + cbn. eexists. split; [reflexivity | split; reflexivity].
  + apply Forall_lookup. intros j q Hq. split; [|now apply (Hno j)].
    rewrite Forall_lookup in Hcp. now apply (Hcp j).
Qed.

(** C5. On every 32-bit TTI the function returns a decision. With MCCH
    never configured the decision has [enable = false] and
    [is_mcch = false], whatever the rest of the object holds. With MCCH
    configured the body divides by the enumerated periods; none of them
    being zero, the function returns on every TTI, and when neither the MCCH
    slot nor a channel window matches the decision it returns is
    disabled. *)
Theorem scheduling_total (phy : Phy) (tti area : Z) :
  is_u32 tti ->
  (_mcch_configured phy = false ->
   exists cfg,
     mbsfn_config_for_tti phy tti area = Some (cfg, area) /\
     enable cfg = false /\ is_mcch cfg = false) /\
  (periods_ok phy ->
   exists cfg area', mbsfn_config_for_tti phy tti area = Some (cfg, area')) /\
  (periods_ok phy ->
   mcch_slot phy tti = false ->
   (_mch_configured phy = false \/
    forall (j : nat) q, channels phy !! j = Some q ->
      srsran.sf_alloc_end q <
      chan_idx (mbms_dedicated (_cell phy)) (tti / 10) (tti mod 10) q) ->
   exists cfg,
     mbsfn_config_for_tti phy tti area = Some (cfg, area) /\
     enable cfg = false /\ is_mcch cfg = false).
Proof.
  intros Htti. split; [|split].
  - intros Hconf. exists cfg_init.
    split; [now apply config_unconfigured | split; reflexivity].
  - apply config_returns.
  - apply config_no_match.
Qed.

(** C5 on the scenario cell at [tti = 11], where nothing matches. *)
Lemma scheduling_total_witness :
  is_u32 11 /\ periods_ok (phy_scenario true chans_one) /\
  exists cfg area',
    mbsfn_config_for_tti (phy_scenario true chans_one) 11 3 = Some (cfg, area').
Proof.
  assert (H1 : is_u32 11) by (unfold is_u32; lia).
  assert (H2 : periods_ok (phy_scenario true chans_one)).
  { split; [vm_compute; congruence|].
    repeat constructor; vm_compute; congruence. }
  repeat (split; [assumption|]).
  exact (proj1 (proj2 (scheduling_total (phy_scenario true chans_one) 11 3 H1)) H2).
Defined.

(** ** Subframe 0 of frame 0 of a scheduling period *)

(** C10, as amended. At subframe 0, for every channel [i] whose
    [periodFrame] is 0 the allocation index wraps to [2^32 - 1], the
    comparison with the 16-bit [sf_alloc_end] is false and the subframe is
    not assigned to channel [i]; the function still returns a decision, and
    when [periodFrame] is 0 for every channel and the channel check is
    reached the decision is disabled. *)
Theorem subframe0_underflow (phy : Phy) (tti area : Z) :
  is_u32 tti -> sched_ok phy -> tti mod 10 = 0 ->
  let dedicated := mbms_dedicated (_cell phy) in
  let sfn := tti / 10 in
  (forall (i : nat) p,
     channels phy !! i = Some p ->
     sfn mod srsran.mch_sched_period p = 0 ->
     chan_idx dedicated sfn 0 p = 2 ^ 32 - 1 /\
     (chan_idx dedicated sfn 0 p <=? srsran.sf_alloc_end p) = false /\
     forall cfg,
       ~ (mbsfn_config_for_tti phy tti area = Some (cfg, Z.of_nat i) /\
          enable cfg = true /\ is_mcch cfg = false)) /\
  (exists cfg area', mbsfn_config_for_tti phy tti area = Some (cfg, area')) /\
  (reaches_channel_check phy tti ->
   (forall p, p ∈ channels phy -> sfn mod srsran.mch_sched_period p = 0) ->
   exists cfg,
     mbsfn_config_for_tti phy tti area = Some (cfg, area) /\
     enable cfg = false /\ is_mcch cfg = false).
Proof.
  intros Htti Hok Hsf dedicated sfn.
  assert (Hwrap : forall p, p ∈ channels phy ->
            sfn mod srsran.mch_sched_period p = 0 ->
            chan_idx dedicated sfn 0 p = 2 ^ 32 - 1 /\
            srsran.sf_alloc_end p < chan_idx dedicated sfn 0 p).
  { intros p Hp Hpf. unfold chan_idx. rewrite Hpf, sf_idx_of_underflow.
    split; [reflexivity|].
    destruct Hok as [_ Hc]. rewrite Forall_forall in Hc.
    destruct (Hc p Hp) as [Hend _]. unfold is_u16 in Hend. lia. }
  split; [|split].
  - intros i p Hi Hpf.
    destruct (Hwrap p) as [Hidx Hgt];
      [apply list_elem_of_lookup; eauto | exact Hpf |].
    split; [exact Hidx|]. split; [apply Z.leb_gt; exact Hgt|].
    intros cfg (Hres & Hen & Hmc).
    destruct (config_assigned_inv _ _ _ _ _ Hres Hen Hmc)
      as (_ & i' & mcs & Hscan & Hii & _).
    apply Nat2Z.inj in Hii. subst i'.
    apply pmch_scan_inv in Hscan.
    destruct Hscan as (pre & p' & post & Hch & Hlen & _ & _ & Hle & _).
    cbn in Hlen. rewrite Hch, Hlen, list_lookup_middle in Hi by reflexivity.
    injection Hi as ->. rewrite Hsf in Hle. fold dedicated sfn in Hle. lia.
  - now apply config_returns, sched_ok_periods.
  - intros Hreach Hall.
    apply config_no_match; [now apply sched_ok_periods| |].
    + apply Hreach.
    + right. intros j q Hq. rewrite Hsf. fold dedicated sfn.
      apply Hwrap; [apply list_elem_of_lookup; eauto|].
      apply Hall. apply list_elem_of_lookup. eauto.
Qed.

(** C10 amended, on the dedicated cell with one channel of period 32 and
    an MCCH table that does not mark subframe 0, at [tti = 0]: the channel
    check is reached, the index of channel 0 wraps, the comparison fails and
    the decision is disabled. *)
Lemma subframe0_underflow_witness :
  is_u32 0 /\ sched_ok (phy_unmarked true chans_one) /\ 0 mod 10 = 0 /\
  reaches_channel_check (phy_unmarked true chans_one) 0 /\
  chan_idx true (0 / 10) 0 (srsran.mk_pmch 9 10 32 []) = 2 ^ 32 - 1 /\
  (chan_idx true (0 / 10) 0 (srsran.mk_pmch 9 10 32 []) <=? 9) = false /\
  (forall cfg,
     ~ (mbsfn_config_for_tti (phy_unmarked true chans_one) 0 0 =
          Some (cfg, Z.of_nat 0) /\
        enable cfg = true /\ is_mcch cfg = false)) /\
  exists cfg,
    mbsfn_config_for_tti (phy_unmarked true chans_one) 0 0 = Some (cfg, 0) /\
    enable cfg = false /\ is_mcch cfg = false.
Proof.
  assert (H1 : is_u32 0) by (unfold is_u32; lia).
  assert (H2 : sched_ok (phy_unmarked true chans_one)).
  { split; [vm_compute; split; reflexivity|].
    repeat constructor; vm_compute; congruence. }
  assert (H3 : 0 mod 10 = 0) by reflexivity.
  assert (H4 : reaches_channel_check (phy_unmarked true chans_one) 0)
    by (repeat split).
  repeat (split; [assumption|]).
  destruct (subframe0_underflow (phy_unmarked true chans_one) 0 0 H1 H2 H3)
    as (Hchan & _ & Hall).
  destruct (Hchan 0%nat (srsran.mk_pmch 9 10 32 []) eq_refl eq_refl)
    as (Hidx & Hcmp & Hnever).
  split; [exact Hidx|]. split; [exact Hcmp|]. split; [exact Hnever|].
  apply (Hall H4). intros p Hp.
  apply list_elem_of_singleton in Hp. subst p. reflexivity.
Defined.

(** C10 as stated fails when the scheduling periods differ: in a dedicated
    cell with channels of periods 8 and 16 frames, [tti = 80] is subframe 0
    of frame 0 of the period of channel 0, channel 1 sees frame 8 of its
    period and index 77, and the subframe is assigned to channel 1. *)
Lemma subframe0_assigned_counterexample :
  80 mod 10 = 0 /\ (80 / 10) mod 8 = 0 /\
  channels (phy_scenario true chans_two_periods) !! 0%nat =
    Some (srsran.mk_pmch 9 10 8 []) /\
  mbsfn_config_for_tti (phy_scenario true chans_two_periods) 80 0 =
    Some (mk_cfg true false (Some 1) (Some 1) (Some 12), 1).
Proof. repeat split. Qed.

(** ** Steady-state synchronisation *)

Lemma wrap32_mod_1024 (x : Z) : wrap32 x mod 1024 = x mod 1024.
Proof.
  unfold wrap32. apply Z.mod_mod_divide. exists (2 ^ 22). reflexivity.
Qed.

Lemma sfn_dedicated_spec (sfn sfn_offset : Z) :
  sfn_dedicated sfn sfn_offset = (sfn + 4 * sfn_offset) mod 1024.
Proof.
  unfold sfn_dedicated, add32, mul32, kSfnOffset, kMaxSfn.
  rewrite wrap32_mod_1024.
  rewrite <- Zplus_mod_idemp_r, wrap32_mod_1024.
  rewrite <- Zmult_mod_idemp_l, wrap32_mod_1024.
  rewrite Zmult_mod_idemp_l, Zplus_mod_idemp_r.
  f_equal. lia.
Qed.

Lemma sfn_mixed_spec (sfn sfn_offset : Z) :
  sfn_mixed sfn sfn_offset = (sfn + sfn_offset) mod 1024.
Proof.
  unfold sfn_mixed, add32, kMaxSfn.
  rewrite wrap32_mod_1024.
  rewrite <- Zplus_mod_idemp_r, wrap32_mod_1024, Zplus_mod_idemp_r.
  reflexivity.
Qed.

Lemma tti_of_sfn (sfn : Z) :
  mul32 (sfn mod 1024) kSubframesPerFrame = sfn mod 1024 * 10.
Proof.
  unfold mul32, wrap32, kSubframesPerFrame.
  pose proof (Z.mod_pos_bound sfn 1024).
  apply Z.mod_small. lia.
Qed.

(** C8. [synchronize_subframe] returns true exactly when the sample block
    is acquired ([srsran_ue_sync_zerocopy] gives 1), the subframe index is
    0 and the MIB decodes ([srsran_ue_mib_decode] gives 1); the stored TTI
    is then [SFN * 10] with [SFN = (decoded + 4 * sfn_offset) mod 1024] in a
    dedicated cell and [SFN = (decoded + sfn_offset) mod 1024] in a mixed
    cell; a sync error or a failed decode gives false. *)
Theorem synchronize_subframe_spec (api : srsran_api) (io : sync_io) (phy : Phy) :
  let r := synchronize_subframe api io phy in
  let decoded_mbms :=
    snd (srsran_pbch_mib_mbms_unpack api (mib_payload io) (_cell phy)
           (_override_nof_prb phy)) in
  let decoded :=
    snd (srsran_pbch_mib_unpack api (mib_payload io) (_cell phy)) in
  (fst r = true <->
   zerocopy_ret io = 1 /\ sfidx io = 0 /\ mib_decode_ret io = 1) /\
  (fst r = true ->
   _tti (snd r) =
     (if mbms_dedicated (_cell phy)
      then (decoded_mbms + 4 * mib_sfn_offset io) mod 1024
      else (decoded + mib_sfn_offset io) mod 1024) * 10) /\
  (zerocopy_ret io < 0 -> fst r = false) /\
  (mib_decode_ret io <> 1 -> fst r = false) /\
  (fst r = false -> snd r = phy).
Proof.
  intros r decoded_mbms decoded. unfold r, synchronize_subframe.
  destruct (Z.ltb_spec (zerocopy_ret io) 0) as [Hneg|Hnn].
  { cbn. repeat split; try easy; try lia. }
  destruct (Z.eqb_spec (zerocopy_ret io) 1) as [H1|H1].
  2:{ cbn. repeat split; try easy; try lia. }
  destruct (Z.eqb_spec (sfidx io) 0) as [H0|H0].
  2:{ cbn. repeat split; try easy; try lia. }
  destruct (Z.eqb_spec (mib_decode_ret io) 1) as [Hn|Hn].
  2:{ cbn. repeat split; try easy; try lia. }
  unfold decoded_mbms, decoded.
  destruct (mbms_dedicated (_cell phy)).
  - destruct (srsran_pbch_mib_mbms_unpack _ _ _ _) as [c sfn0]. cbn.
    rewrite sfn_dedicated_spec, tti_of_sfn.
    repeat split; try easy; try lia.
  - destruct (srsran_pbch_mib_unpack _ _ _) as [c sfn0]. cbn.
    rewrite sfn_mixed_spec, tti_of_sfn.
    repeat split; try easy; try lia.
Qed.

Lemma synchronize_subframe_spec_witness :
  _tti (snd (synchronize_subframe api_prb25 io_sync
               (phy_scenario true chans_one))) = 350.
Proof.
  exact (proj1 (proj2 (synchronize_subframe_spec api_prb25 io_sync
                         (phy_scenario true chans_one))) eq_refl).
Defined.

(** ** Resource-block counts *)

Lemma cell_search_finish_prb (api : srsran_api) (io : cell_search_io)
    (phy : Phy) (ret : Z) (new_cell : srsran_cell_t) (o : mib_out) (phy' : Phy) :
  cell_search_finish api io phy ret new_cell o = (true, phy') ->
  mbsfn_prb (_cell phy') = nof_prb (_cell phy').
Proof.
  unfold cell_search_finish.
  destruct (ret =? 1); [|discriminate].
  destruct (if mbms_dedicated new_cell then _ else _) as [unpacked sfn].
  destruct (negb (srsran_cell_isvalid api unpacked)); [discriminate|].
  destruct (negb (ue_sync_set_cell_ret io =? 0)); [discriminate|].
  destruct (negb (ue_mib_set_cell_ret io =? 0)); [discriminate|].
  intros [= <-]. reflexivity.
Qed.

Lemma cell_search_prb (api : srsran_api) (io : cell_search_io) (phy phy' : Phy) :
  cell_search api io phy = Some (true, phy') ->
  mbsfn_prb (_cell phy') = nof_prb (_cell phy').
Proof.
  unfold cell_search.
  destruct (scan_ret io <? 0); [discriminate|].
  destruct (scan_ret io =? 0); [discriminate|].
  destruct (if _ && _ then _ else _) as [found|]; [|discriminate]. cbn.
  destruct (negb (set_cell_prb_dedicated io =? 0)); [discriminate|].
  destruct (decode_dedicated io _) as [ret1 o1].
  destruct (ret1 =? 0).
  - destruct (negb (set_cell_prb_mixed io =? 0)); [discriminate|].
    destruct (decode_mixed io o1) as [ret2 o2].
    intros [= H]. now apply cell_search_finish_prb in H.
  - intros [= H]. now apply cell_search_finish_prb in H.
Qed.

Lemma set_mch_scheduling_info_cell (api : srsran_api) (phy : Phy)
    (sib13 : srsran.sib13_t) :
  let bw := srsran.pmch_bandwidth (srsran.mbsfn_area_info_list_0 sib13) in
  nof_prb (_cell (set_mch_scheduling_info api phy sib13)) = nof_prb (_cell phy) /\
  mbsfn_prb (_cell (set_mch_scheduling_info api phy sib13)) =
    if bw =? 0 then mbsfn_prb (_cell phy) else bw.
Proof.
  unfold set_mch_scheduling_info. cbn.
  destruct (srsran.pmch_bandwidth _ =? 0);
    destruct (0 <? srsran.nof_mbsfn_area_info sib13); split; reflexivity.
Qed.

(** C7, as amended. After a successful [cell_search] the multicast count
    equals the cell-wide count. [set_mch_scheduling_info] replaces the
    multicast count by SIB13's [pmch_bandwidth] when that is not zero and
    keeps it otherwise, [set_nof_mbsfn_prb] replaces it by its argument, and
    neither touches the cell-wide count: the multicast count is at most the
    cell-wide count afterwards exactly when the value written is. *)
Theorem prb_counts (api : srsran_api) (io : cell_search_io) (phy phy1 : Phy) :
  cell_search api io phy = Some (true, phy1) ->
  mbsfn_prb (_cell phy1) = nof_prb (_cell phy1) /\
  (forall sib13,
     let bw := srsran.pmch_bandwidth (srsran.mbsfn_area_info_list_0 sib13) in
     let phy2 := set_mch_scheduling_info api phy1 sib13 in
     nof_prb (_cell phy2) = nof_prb (_cell phy1) /\
     (bw = 0 -> mbsfn_prb (_cell phy2) = nof_prb (_cell phy2)) /\
     (bw <> 0 -> mbsfn_prb (_cell phy2) = bw /\
                 (mbsfn_prb (_cell phy2) <= nof_prb (_cell phy2) <->
                  bw <= nof_prb (_cell phy1)))) /\
  (forall prb,
     let phy2 := set_nof_mbsfn_prb phy1 prb in
     nof_prb (_cell phy2) = nof_prb (_cell phy1) /\
     mbsfn_prb (_cell phy2) = prb /\
     (mbsfn_prb (_cell phy2) <= nof_prb (_cell phy2) <->
      prb <= nof_prb (_cell phy1))).
Proof.
  intros Hcs. pose proof (cell_search_prb _ _ _ _ Hcs) as Heq.
  split; [exact Heq|]. split.
  - intros sib13 bw phy2.
    destruct (set_mch_scheduling_info_cell api phy1 sib13) as [Hn Hm].
    fold bw phy2 in Hn, Hm.
    split; [exact Hn|]. split.
    + intros Hz. rewrite Hm, Hn, Hz. cbn. exact Heq.
    + intros Hnz. destruct (Z.eqb_spec bw 0) as [?|_]; [contradiction|].
      split; [exact Hm|]. rewrite Hm, Hn. reflexivity.
  - intros prb phy2. cbn. repeat split; intros H; exact H.
Qed.

(** C7 amended, on a search that finds a cell of 25 resource blocks. *)
Lemma prb_counts_witness :
  exists phy1,
    cell_search api_prb25 io_found phy_new = Some (true, phy1) /\
    mbsfn_prb (_cell phy1) = 25 /\ nof_prb (_cell phy1) = 25.
Proof.
  eexists. split; [reflexivity|].
  split; [|reflexivity].
  exact (proj1 (prb_counts api_prb25 io_found phy_new _ eq_refl)).
Defined.

(** C7 as stated fails: after a search that finds a cell of 25 resource
    blocks, SIB13 with [pmch_bandwidth = 40] leaves the multicast count at
    40, above the cell-wide count, and so does [set_nof_mbsfn_prb 40]. *)
Lemma prb_counts_counterexample :
  exists phy1,
    cell_search api_prb25 io_found phy_new = Some (true, phy1) /\
    mbsfn_prb (_cell phy1) = nof_prb (_cell phy1) /\
    ~ (mbsfn_prb (_cell (set_mch_scheduling_info api_prb25 phy1 sib13_pmch40))
       <= nof_prb (_cell (set_mch_scheduling_info api_prb25 phy1 sib13_pmch40))) /\
    ~ (mbsfn_prb (_cell (set_nof_mbsfn_prb phy1 40))
       <= nof_prb (_cell (set_nof_mbsfn_prb phy1 40))).
Proof.
  eexists. split; [reflexivity|].
  split; [reflexivity|]. split; cbn; lia.
Qed.

(** ** The TMGI string *)

Lemma lor_shiftl_add (h l k : Z) :
  0 <= k -> 0 <= l < 2 ^ k -> Z.lor (Z.shiftl h k) l = h * 2 ^ k + l.
Proof.
  intros Hk Hl.
  rewrite <- Z.shiftl_mul_pow2 by exact Hk.
  rewrite <- (Z.add_lor_land (Z.shiftl h k) l).
  assert (Z.land (Z.shiftl h k) l = 0) as ->; [|lia].
  apply Z.bits_inj'. intros n Hn.
  rewrite Z.land_spec, Z.bits_0.
  destruct (Z.lt_ge_cases n k) as [Hlt|Hge].
  - rewrite Z.shiftl_spec_low by exact Hlt. reflexivity.
  - destruct (Z.eq_dec l 0) as [->|Hl0].
    + rewrite Z.bits_0. apply andb_false_r.
    + rewrite (Z.bits_above_log2 l n), andb_false_r; [reflexivity|lia|].
      apply Z.log2_lt_pow2; [lia|].
      apply Z.lt_le_trans with (2 ^ k); [lia|].
      apply Z.pow_le_mono_r; lia.
Qed.

Lemma zeros_snoc (k : nat) (acc : string) :
  (zeros k +:+ String "0" acc = zeros (S k) +:+ acc)%string.
Proof.
  induction k as [|k IH]; [reflexivity|].
  change (String "0" (zeros k +:+ String "0" acc) =
          String "0" (zeros (S k) +:+ acc))%string.
  now rewrite IH.
Qed.

Lemma hex_fixed_zero (k : nat) (acc : string) :
  hex_fixed k 0 acc = (zeros k +:+ acc)%string.
Proof.
  revert acc. induction k as [|k IH]; intros acc; [reflexivity|].
  cbn [hex_fixed]. change (0 / 16) with 0. change (0 mod 16) with 0.
  cbn [hex_digit]. rewrite IH. apply zeros_snoc.
Qed.

Lemma hex_fixed_length (k : nat) (n : Z) (acc : string) :
  String.length (hex_fixed k n acc) = (k + String.length acc)%nat.
Proof.
  revert n acc. induction k as [|k IH]; intros n acc; [reflexivity|].
  cbn [hex_fixed]. rewrite IH. cbn. lia.
Qed.

(** Printing stops at the leading digit; the zeros of the fixed width
    make up for the digits it leaves out. *)
Lemma hex_digits_fixed (k fuel : nat) (n : Z) (acc : string) :
  (1 <= k <= fuel)%nat -> 0 <= n < 16 ^ Z.of_nat k ->
  exists pad,
    hex_fixed k n acc = (zeros pad +:+ hex_digits fuel n acc)%string /\
    (String.length (hex_digits fuel n acc) + pad = k + String.length acc)%nat.
Proof.
  revert fuel n acc. induction k as [|k IH]; intros fuel n acc Hk Hn; [lia|].
  destruct fuel as [|fuel]; [lia|].
  cbn [hex_fixed hex_digits].
  assert (Hq : 0 <= n / 16 < 16 ^ Z.of_nat k).
  { rewrite Nat2Z.inj_succ, Z.pow_succ_r in Hn by lia.
    split; [apply Z.div_pos; lia|].
    apply Z.div_lt_upper_bound; lia. }
  destruct (Z.eqb_spec (n / 16) 0) as [Hz|Hnz].
  - exists k. rewrite Hz, hex_fixed_zero. split; [reflexivity|]. cbn. lia.
  - assert (k <> 0%nat).
    { intros ->. change (16 ^ Z.of_nat 0) with 1 in Hq. lia. }
    destruct (IH fuel (n / 16) (String (hex_digit (n mod 16)) acc))
      as (pad & Heq & Hlen); [lia | exact Hq |].
    exists pad. split; [exact Heq|]. rewrite Hlen. cbn. lia.
Qed.

Lemma fmt_0x_fixed (k : nat) (n : Z) :
  (1 <= k <= 8)%nat -> 0 <= n < 16 ^ Z.of_nat k ->
  fmt_0x k n = hex_fixed k n EmptyString.
Proof.
  intros Hk Hn. unfold fmt_0x.
  destruct (hex_digits_fixed k 8 n EmptyString Hk Hn) as (pad & -> & Hlen).
  change (String.length EmptyString) with 0%nat in Hlen.
  replace (k - _)%nat with pad by lia. reflexivity.
Qed.

Lemma fmt_0x_octet (h l : Z) :
  is_nibble h -> is_nibble l ->
  fmt_0x 2 (Z.lor (Z.shiftl h 4) l) =
  String (hex_digit h) (String (hex_digit l) EmptyString).
Proof.
  unfold is_nibble. intros Hh Hl.
  rewrite lor_shiftl_add by lia. change (2 ^ 4) with 16.
  rewrite fmt_0x_fixed by (change (16 ^ Z.of_nat 2) with 256; lia).
  cbn [hex_fixed].
  replace ((h * 16 + l) mod 16) with l
    by (rewrite Z.add_comm, Z.mod_add by lia; symmetry; apply Z.mod_small; lia).
  replace ((h * 16 + l) / 16) with h
    by (rewrite Z.add_comm, Z.div_add, Z.div_small by lia; lia).
  rewrite Z.mod_small by lia. reflexivity.
Qed.

Lemma fmt_0x_service (s0 s1 s2 : Z) :
  is_u8 s0 -> is_u8 s1 -> is_u8 s2 ->
  fmt_0x 6 (Z.lor (Z.lor s2 (Z.shiftl s1 8)) (Z.shiftl s0 16)) =
  string_of_list_ascii
    [hex_digit (s0 / 16); hex_digit (s0 mod 16);
     hex_digit (s1 / 16); hex_digit (s1 mod 16);
     hex_digit (s2 / 16); hex_digit (s2 mod 16)].
Proof.
  unfold is_u8. change (2 ^ 8) with 256. intros H0 H1 H2.
  rewrite (Z.lor_comm s2), lor_shiftl_add by lia. change (2 ^ 8) with 256.
  rewrite Z.lor_comm, lor_shiftl_add by (change (2 ^ 16) with 65536; lia).
  change (2 ^ 16) with 65536.
  rewrite fmt_0x_fixed by (change (16 ^ Z.of_nat 6) with 16777216; lia).
  set (n := s0 * 65536 + (s1 * 256 + s2)).
  cbn [hex_fixed string_of_list_ascii].
  assert (E2 : n mod 16 = s2 mod 16)
    by (unfold n; Z.div_mod_to_equations; lia).
  assert (D1 : n / 16 / 16 = s0 * 256 + s1)
    by (unfold n; Z.div_mod_to_equations; lia).
  assert (E3 : (n / 16) mod 16 = s2 / 16)
    by (unfold n; Z.div_mod_to_equations; lia).
  rewrite E2, E3, D1.
  assert (E4 : (s0 * 256 + s1) mod 16 = s1 mod 16)
    by (Z.div_mod_to_equations; lia).
  assert (D2 : (s0 * 256 + s1) / 16 / 16 = s0)
    by (Z.div_mod_to_equations; lia).
  assert (E5 : ((s0 * 256 + s1) / 16) mod 16 = s1 / 16)
    by (Z.div_mod_to_equations; lia).
  rewrite E4, E5, D2.
  assert (E6 : (s0 / 16) mod 16 = s0 / 16)
    by (Z.div_mod_to_equations; lia).
  rewrite E6. reflexivity.
Qed.

Lemma tmgi_string_packed (t : srsran.tmgi_t) :
  tmgi_ok t -> tmgi_string t = tmgi_packed t.
Proof.
  destruct t as [[[[mcc0 mcc1] mcc2] [[mnc0 mnc1] mnc2] nd] [[s0 s1] s2]].
  unfold tmgi_ok, tmgi_string, tmgi_packed, tmgi_service, tmgi_octet6,
    tmgi_octet7, tmgi_octet8. cbn.
  intros (H0 & H1 & H2 & H3 & H4 & H5 & H6 & H7 & H8).
  rewrite fmt_0x_service by assumption.
  rewrite !fmt_0x_octet; try assumption.
  - reflexivity.
  - destruct (nd =? 2); [unfold is_nibble; lia | assumption].
Qed.

Lemma tmgi_packed_length (t : srsran.tmgi_t) :
  String.length (tmgi_packed t) = 12%nat.
Proof.
  destruct t as [[[[mcc0 mcc1] mcc2] [[mnc0 mnc1] mnc2] nd] [[s0 s1] s2]].
  reflexivity.
Qed.

Lemma mtchs_of_spec (i : Z) (sessions : list srsran.mbms_session_info_t)
    (d : gmap Z (gmap Z string)) (acc : list mtch_info_t) :
  exists rest,
    fst (mtchs_of i sessions d acc) = acc ++ rest /\
    Forall2 mtch_of_session sessions rest.
Proof.
  revert d acc. induction sessions as [|s sessions IH]; intros d acc.
  - exists []. cbn. rewrite app_nil_r. split; [reflexivity|constructor].
  - cbn [mtchs_of].
    destruct (dests_at d i (srsran.lc_ch_id s)) as [dest d'].
    destruct (IH d' (acc ++ [mk_mtch (tmgi_string (srsran.tmgi s)) dest
                               (srsran.lc_ch_id s)]))
      as (rest & -> & Hrest).
    eexists (_ :: rest). rewrite <- app_assoc. split; [reflexivity|].
    constructor; [split; reflexivity | exact Hrest].
Qed.

Lemma mch_info_of_spec (i : Z) (pmchs : list srsran.pmch_info_t)
    (d : gmap Z (gmap Z string)) (acc : list mch_info_t) :
  exists rest,
    fst (mch_info_of i pmchs d acc) = acc ++ rest /\
    Forall2 mch_of_pmch pmchs rest.
Proof.
  revert i d acc. induction pmchs as [|p pmchs IH]; intros i d acc.
  - exists []. cbn. rewrite app_nil_r. split; [reflexivity|constructor].
  - cbn [mch_info_of].
    destruct (mtchs_of_spec i (srsran.mbms_session_info_list p) d [])
      as (ms & Hms & Hsess).
    destruct (mtchs_of i (srsran.mbms_session_info_list p) d []) as [ms' d'].
    cbn in Hms. subst ms'.
    destruct (IH (i + 1) d' (acc ++ [mk_mch (srsran.data_mcs p) ms]))
      as (rest & -> & Hrest).
    eexists (_ :: rest). rewrite <- app_assoc. split; [reflexivity|].
    constructor; [split; [reflexivity | exact Hsess] | exact Hrest].
Qed.

Lemma set_mbsfn_config_view (phy : Phy) (mcch : srsran.mcch_msg_t) :
  Forall2 mch_of_pmch (srsran.pmch_info_list mcch)
          (_mch_info (set_mbsfn_config phy mcch)).
Proof.
  unfold set_mbsfn_config.
  destruct (mch_info_of_spec 0 (srsran.pmch_info_list mcch) (_dests phy) [])
    as (rest & Hrest & Hall).
  destruct (mch_info_of 0 _ _ _) as [info d]. cbn in *. now subst info.
Qed.

(** C6, as amended. For every session of every channel of the MCCH message
    [set_mbsfn_config] stores the string that [sprintf] builds from the
    service identifier and the three packed octets; when the PLMN digits are
    nibbles and the service identifier is three bytes it has 12 hexadecimal
    digits: six for the service identifier, then MCC digit 2, MCC digit 1,
    MNC digit 3 (or the filler f), MCC digit 3, MNC digit 2, MNC digit 1.
    For MCC 901, MNC 56 and service identifier 0x000001 it is
    [00000109f165]. *)
Theorem tmgi_format (phy : Phy) (mcch : srsran.mcch_msg_t) (i j : nat)
    (p : srsran.pmch_info_t) (s : srsran.mbms_session_info_t) :
  srsran.pmch_info_list mcch !! i = Some p ->
  srsran.mbms_session_info_list p !! j = Some s ->
  (exists mch m,
     _mch_info (set_mbsfn_config phy mcch) !! i = Some mch /\
     mtchs mch !! j = Some m /\
     mtch_tmgi m = tmgi_string (srsran.tmgi s) /\
     (tmgi_ok (srsran.tmgi s) ->
      mtch_tmgi m = tmgi_packed (srsran.tmgi s) /\
      String.length (mtch_tmgi m) = 12%nat)) /\
  tmgi_string tmgi_901_56 = "00000109f165"%string.
Proof.
  intros Hp Hs. split; [|reflexivity].
  pose proof (set_mbsfn_config_view phy mcch) as Hview.
  destruct (Forall2_lookup_l _ _ _ _ _ Hview Hp) as (mch & Hmch & _ & Hsess).
  destruct (Forall2_lookup_l _ _ _ _ _ Hsess Hs) as (m & Hm & Htm & _).
  exists mch, m. repeat (split; [assumption|]).
  intros Hok. rewrite Htm, tmgi_string_packed by exact Hok.
  split; [reflexivity | apply tmgi_packed_length].
Qed.

(** C6 amended, on the message with MCC 901, MNC 56, service 0x000001. *)
Lemma tmgi_format_witness :
  exists mch m,
    _mch_info (set_mbsfn_config phy_new mcch_901_56) !! 0%nat = Some mch /\
    mtchs mch !! 0%nat = Some m /\
    mtch_tmgi m = tmgi_string tmgi_901_56.
Proof.
  destruct (tmgi_format phy_new mcch_901_56 0 0 _ _ eq_refl eq_refl)
    as [(mch & m & H1 & H2 & H3 & _) _].
  exists mch, m. repeat split; assumption.
Defined.

(** C6 as stated fails on its own example: the string stored for MCC 901,
    MNC 56, service 0x000001 has 12 characters, not 16, and its octets are
    09 f1 65, not 09 5F 61. *)
Lemma tmgi_format_counterexample :
  _mch_info (set_mbsfn_config phy_new mcch_901_56) =
    [mk_mch 10 [mk_mtch "00000109f165" EmptyString 1]] /\
  String.length "00000109f165" <> 16%nat /\
  "00000109f165"%string <> "000001095 F61"%string /\
  "00000109f165"%string <> "000001095F61"%string /\
  "00000109f165"%string <> "000001095f61"%string.
Proof.
  split; [reflexivity|]. repeat split; discriminate.
Qed.

(** * Further properties of the code *)

(** ** Shape of a scheduling decision *)

(** The four ways [mbsfn_config_for_tti] returns. *)
Lemma config_result_cases (phy : Phy) (tti area : Z)
    (cfg : srsran_mbsfn_cfg_t) (area' : Z) :
  mbsfn_config_for_tti phy tti area = Some (cfg, area') ->
  let aid := Some (srsran.mbsfn_area_id (area_info phy)) in
  let len := Some (srsran.non_mbsfn_region_len (area_info phy)) in
  let sig := srsran.sig_mcs (srsran.mcch_cfg (area_info phy)) in
  (_mcch_configured phy = false /\ cfg = cfg_init /\ area' = area) \/
  (_mcch_configured phy = true /\ _decode_mcch phy = true /\
   mcch_slot phy tti = true /\
   cfg = mk_cfg true true aid len (Some sig) /\ area' = area) \/
  (_mcch_configured phy = true /\
   cfg = mk_cfg false false aid len None /\ area' = area) \/
  (_mcch_configured phy = true /\ reaches_channel_check phy tti /\
   exists (i : nat) mcs,
     pmch_scan (mbms_dedicated (_cell phy)) sig (channels phy)
       (tti / 10) (tti mod 10) 0%nat (channels phy) = Some (Some (i, mcs)) /\
     cfg = mk_cfg true false aid len (Some mcs) /\ area' = Z.of_nat i).
Proof.
  intros Hres aid len sig.
  destruct (_mcch_configured phy) eqn:Hconf.
  2:{ rewrite config_unconfigured in Hres by exact Hconf.
      injection Hres as <- <-. left. repeat split. }
  right.
  destruct (Z.eq_dec (srsran.mcch_repeat_period (srsran.mcch_cfg (area_info phy))) 0)
    as [Hz|Hnz].
  { unfold mbsfn_config_for_tti in Hres. rewrite Hconf in Hres.
    fold (area_info phy) in Hres. unfold umod in Hres. rewrite Hz in Hres.
    discriminate. }
  destruct (mcch_slot phy tti) eqn:Hslot.
  { rewrite (config_mcch_slot _ _ _ Hconf Hnz Hslot) in Hres.
    destruct (_decode_mcch phy) eqn:Hdec; injection Hres as <- <-.
    - left. repeat split.
    - right; left. repeat split. }
  right.
  destruct (_mch_configured phy) eqn:Hmch.
  2:{ rewrite (config_no_message _ _ _ Hconf Hnz Hslot Hmch) in Hres.
      injection Hres as <- <-. left. repeat split. }
  assert (Hreach : reaches_channel_check phy tti) by (repeat split; assumption).
  rewrite (config_channel_check _ _ _ Hnz Hreach) in Hres.
  destruct (pmch_scan _ _ _ _ _ _ _) as [[[i mcs]|]|] eqn:Hscan; cbn in Hres;
    [|injection Hres as <- <-; left; repeat split|discriminate].
  injection Hres as <- <-. right. split; [reflexivity|]. split; [exact Hreach|].
  exists i, mcs. repeat split.
Qed.

(** X1. The channel index handed back through [area]: when the decision is
    enabled and not MCCH, [area] is the index of a channel of the MCCH
    message (below [nof_pmch_info]); in every other case [area] keeps the
    value the caller passed in. *)
Theorem area_index_valid (phy : Phy) (tti area : Z)
    (cfg : srsran_mbsfn_cfg_t) (area' : Z) :
  mbsfn_config_for_tti phy tti area = Some (cfg, area') ->
  (enable cfg = true /\ is_mcch cfg = false ->
   exists (i : nat) p,
     area' = Z.of_nat i /\ channels phy !! i = Some p /\
     (i < srsran.nof_pmch_info (_mcch phy))%nat) /\
  (~ (enable cfg = true /\ is_mcch cfg = false) -> area' = area).
Proof.
  intros Hres.
  destruct (config_result_cases _ _ _ _ _ Hres)
    as [(_ & -> & ->)|[(_ & _ & _ & -> & ->)|[(_ & -> & ->)|
        (_ & _ & i & mcs & Hscan & -> & ->)]]];
    cbn; (split; [|try (intros _; reflexivity)]);
    try (intros [? ?]; discriminate).
  - intros _. apply pmch_scan_inv in Hscan.
    destruct Hscan as (pre & p & post & Hch & Hi & _).
    cbn in Hi. subst i.
    assert (Hl : channels phy !! length pre = Some p).
    { rewrite Hch. apply list_lookup_middle. reflexivity. }
    exists (length pre), p. split; [reflexivity|]. split; [exact Hl|].
    apply lookup_lt_Some in Hl. exact Hl.
  - intros Hn. exfalso. apply Hn. split; reflexivity.
Qed.

Lemma area_index_valid_witness :
  exists (i : nat) p,
    1 = Z.of_nat i /\
    channels (phy_scenario true chans_two) !! i = Some p /\
    (i < srsran.nof_pmch_info (_mcch (phy_scenario true chans_two)))%nat.
Proof.
  exact (proj1 (area_index_valid (phy_scenario true chans_two) 11 0
                  (mk_cfg true false (Some 1) (Some 1) (Some 2)) 1 eq_refl)
           (conj eq_refl eq_refl)).
Defined.

(** X2. What a returned decision holds: [is_mcch] only comes with [enable],
    with the signalling coding scheme and with MCCH decoding switched on;
    the coding scheme is assigned exactly when the decision is enabled; the
    area id and the region length are assigned, from SIB13, exactly when
    MCCH is configured. *)
Theorem decision_shape (phy : Phy) (tti area : Z)
    (cfg : srsran_mbsfn_cfg_t) (area' : Z) :
  mbsfn_config_for_tti phy tti area = Some (cfg, area') ->
  (is_mcch cfg = true ->
   enable cfg = true /\ _decode_mcch phy = true /\
   mbsfn_mcs cfg = Some (srsran.sig_mcs (srsran.mcch_cfg (area_info phy)))) /\
  (enable cfg = true <-> mbsfn_mcs cfg <> None) /\
  (_mcch_configured phy = true ->
   mbsfn_area_id cfg = Some (srsran.mbsfn_area_id (area_info phy)) /\
   non_mbsfn_region_length cfg =
     Some (srsran.non_mbsfn_region_len (area_info phy))) /\
  (_mcch_configured phy = false ->
   mbsfn_area_id cfg = None /\ non_mbsfn_region_length cfg = None).
Proof.
  intros Hres.
  destruct (config_result_cases _ _ _ _ _ Hres)
    as [(Hc & -> & ->)|[(Hc & Hd & _ & -> & ->)|[(Hc & -> & ->)|
        (Hc & _ & i & mcs & _ & -> & ->)]]];
    cbn; rewrite Hc; repeat split;
      try discriminate; try congruence; try assumption;
      try (intros H; exfalso; now apply H).
Qed.

Lemma decision_shape_witness :
  enable (mk_cfg true false (Some 1) (Some 1) (Some 2)) = true <->
  mbsfn_mcs (mk_cfg true false (Some 1) (Some 1) (Some 2)) <> None.
Proof.
  exact (proj1 (proj2 (decision_shape (phy_scenario true chans_two) 11 0
                         (mk_cfg true false (Some 1) (Some 1) (Some 2)) 1
                         eq_refl))).
Defined.

(** ** Periodicity of the schedule *)





(** ** Channel windows under one scheduling period *)

(** X4. When all channels have the same scheduling period and their
    [sf_alloc_end] do not decrease along the list, a TTI that reaches the
    channel check is assigned to channel [i] exactly when its allocation
    index lies above [sf_alloc_end(i-1)] (for [i > 0]) and at most at
    [sf_alloc_end(i)]: the windows are contiguous and disjoint. *)
Theorem shared_period_windows (phy : Phy) (tti area P : Z) (i : nat)
    (p : srsran.pmch_info_t) :
  sched_ok phy -> reaches_channel_check phy tti ->
  Forall (fun q => srsran.mch_sched_period q = P) (channels phy) ->
  (forall (j k : nat) qj qk, (j < k)%nat ->
     channels phy !! j = Some qj -> channels phy !! k = Some qk ->
     srsran.sf_alloc_end qj <= srsran.sf_alloc_end qk) ->
  channels phy !! i = Some p ->
  let idx := sf_idx_of (mbms_dedicated (_cell phy)) ((tti / 10) mod P) (tti mod 10) in
  (exists cfg,
     mbsfn_config_for_tti phy tti area = Some (cfg, Z.of_nat i) /\
     enable cfg = true /\ is_mcch cfg = false) <->
  (idx <= srsran.sf_alloc_end p /\
   forall prev, channels phy !! (i - 1)%nat = Some prev -> (0 < i)%nat ->
     srsran.sf_alloc_end prev < idx).
Proof.
  intros Hok Hreach Hsame Hsorted Hi idx.
  pose proof (sched_ok_periods _ Hok) as [Hrp Hcp].
  fold (area_info phy) in Hrp. fold (channels phy) in Hcp.
  assert (Hidx : forall (j : nat) q, channels phy !! j = Some q ->
            chan_idx (mbms_dedicated (_cell phy)) (tti / 10) (tti mod 10) q = idx).
  { intros j q Hq. unfold chan_idx, idx.
    rewrite Forall_lookup in Hsame. now rewrite (Hsame j q Hq). }
  split.
  - intros (cfg & Hres & Hen & Hmc).
    destruct (config_assigned_inv _ _ _ _ _ Hres Hen Hmc)
      as (_ & i' & mcs & Hscan & Hii & _).
    apply Nat2Z.inj in Hii. subst i'.
    apply pmch_scan_inv in Hscan.
    destruct Hscan as (pre & p' & post & Hch & Hlen & Hpre & _ & Hle & _).
    cbn in Hlen.
    assert (Hp' : channels phy !! i = Some p').
    { rewrite Hch, Hlen. apply list_lookup_middle. reflexivity. }
    rewrite Hi in Hp'. injection Hp' as <-.
    rewrite (Hidx i p Hi) in Hle. split; [exact Hle|].
    intros prev Hprev Hpos.
    assert (Hin : pre !! (i - 1)%nat = Some prev).
    { rewrite Hch, lookup_app_l in Hprev by lia. exact Hprev. }
    rewrite Forall_lookup in Hpre. destruct (Hpre _ _ Hin) as [_ Hlt].
    rewrite (Hidx (i - 1)%nat prev) in Hlt; [exact Hlt|].
    rewrite Hch, lookup_app_l by lia. exact Hin.
  - intros [Hle Hprev].
    pose proof (pmch_scan_first (mbms_dedicated (_cell phy))
                  (srsran.sig_mcs (srsran.mcch_cfg (area_info phy)))
                  (channels phy) (tti / 10) (tti mod 10) 0
                  (take i (channels phy)) p (drop (S i) (channels phy)))
      as Hfirst.
    rewrite (take_drop_middle _ _ _ Hi) in Hfirst.
    rewrite length_take_le in Hfirst by (apply lookup_lt_Some in Hi; lia).
    rewrite (config_channel_check _ _ _ Hrp Hreach), Hfirst.
    + cbn. eexists. split; [reflexivity|]. split; reflexivity.
    + apply skipped_prefix; [exact Hcp|].
      intros j q Hj Hq. rewrite (Hidx j q Hq).
      destruct (lookup_lt_is_Some_2 (channels phy) (i - 1)) as [prev Hpv].
      { apply lookup_lt_Some in Hi. lia. }
      specialize (Hprev prev Hpv ltac:(lia)).
      destruct (Nat.eq_dec j (i - 1)%nat) as [->|Hne].
      * rewrite Hpv in Hq. injection Hq as <-. exact Hprev.
      * pose proof (Hsorted j (i - 1)%nat q prev ltac:(lia) Hq Hpv). lia.
    + rewrite Forall_lookup in Hcp. now apply (Hcp i).
    + rewrite (Hidx i p Hi). exact Hle.
Qed.

(** X4 on three channels of period 8 with windows 0..9, 10..19, 20..29:
    [tti = 13] has index 12 and goes to channel 1. *)
Lemma shared_period_windows_witness :
  exists cfg,
    mbsfn_config_for_tti (phy_scenario true chans_three) 13 0 = Some (cfg, 1) /\
    enable cfg = true /\ is_mcch cfg = false.
Proof.
  assert (H2 : sched_ok (phy_scenario true chans_three)).
  { split; [vm_compute; split; reflexivity|].
    repeat constructor; vm_compute; congruence. }
  assert (H3 : reaches_channel_check (phy_scenario true chans_three) 13).
  { repeat split. }
  assert (H4 : Forall (fun q => srsran.mch_sched_period q = 8)
                 (channels (phy_scenario true chans_three))).
  { repeat constructor. }
  assert (H5 : forall (j k : nat) qj qk, (j < k)%nat ->
     channels (phy_scenario true chans_three) !! j = Some qj ->
     channels (phy_scenario true chans_three) !! k = Some qk ->
     srsran.sf_alloc_end qj <= srsran.sf_alloc_end qk).
  { intros j k qj qk Hjk Hj Hk.
    destruct j as [|[|[|j]]]; destruct k as [|[|[|k]]];
      try lia; try discriminate;
      injection Hj as <-; injection Hk as <-; cbn; lia. }
  apply (proj2 (shared_period_windows (phy_scenario true chans_three) 13 0 8
                  1%nat _ H2 H3 H4 H5 eq_refl)).
  split; [cbn; vm_compute; congruence|].
  intros prev [= <-] _. vm_compute. reflexivity.
Defined.

(** ** The allocation index counts MBSFN subframes *)

Lemma mbsfn_count_dedicated (phy : Phy) (start : Z) (n : nat) :
  mbms_dedicated (_cell phy) = true -> start mod 40 = 0 ->
  mbsfn_count phy start n = Z.of_nat n - (Z.of_nat n + 39) / 40.
Proof.
  intros Hd Hs. induction n as [|n IH]; [reflexivity|].
  cbn [mbsfn_count]. rewrite IH.
  unfold is_mbsfn_subframe, is_cas_subframe. rewrite Hd.
  rewrite Nat2Z.inj_succ.
  assert (Hm : (start + Z.of_nat n) mod 40 = Z.of_nat n mod 40).
  { rewrite Zplus_mod, Hs, Z.add_0_l, Z.mod_mod by lia. reflexivity. }
  rewrite Hm.
  destruct (Z.eqb_spec (Z.of_nat n mod 40) 0) as [Hz|Hnz]; cbn [negb];
    Z.div_mod_to_equations; lia.
Qed.

Lemma mixed_rank_step (r : Z) :
  0 <= r <= 9 ->
  mixed_rank_in_frame r +
  (if negb ((r =? 0) || (r =? 4) || (r =? 5) || (r =? 9)) &&
      ((r =? 1) || (r =? 2) || (r =? 3) || (r =? 6) || (r =? 7) || (r =? 8))
   then 1 else 0) =
  if r =? 9 then 6 else mixed_rank_in_frame (r + 1).
Proof.
  intros Hr.
  assert (H : r = 0 \/ r = 1 \/ r = 2 \/ r = 3 \/ r = 4 \/ r = 5 \/
              r = 6 \/ r = 7 \/ r = 8 \/ r = 9) by lia.
  destruct H as [H|[H|[H|[H|[H|[H|[H|[H|[H|H]]]]]]]]]; subst r; reflexivity.
Qed.

Lemma mbsfn_count_mixed (phy : Phy) (start : Z) (n : nat) :
  mbms_dedicated (_cell phy) = false -> start mod 10 = 0 ->
  mbsfn_count phy start n =
    6 * (Z.of_nat n / 10) + mixed_rank_in_frame (Z.of_nat n mod 10).
Proof.
  intros Hd Hs. induction n as [|n IH]; [reflexivity|].
  cbn [mbsfn_count]. rewrite IH.
  unfold is_mbsfn_subframe, is_cas_subframe. rewrite Hd.
  rewrite Nat2Z.inj_succ.
  assert (Hm : (start + Z.of_nat n) mod 10 = Z.of_nat n mod 10).
  { rewrite Zplus_mod, Hs, Z.add_0_l, Z.mod_mod by lia. reflexivity. }
  rewrite Hm, <- Z.add_assoc, mixed_rank_step by apply subframe_range.
  set (m := Z.of_nat n).
  destruct (Z.eqb_spec (m mod 10) 9) as [H9|H9].
  - assert (Z.succ m / 10 = m / 10 + 1 /\ Z.succ m mod 10 = 0) as [-> ->]
      by (Z.div_mod_to_equations; lia).
    change (mixed_rank_in_frame 0) with 0. lia.
  - pose proof (subframe_range m).
    assert (Z.succ m / 10 = m / 10 /\ Z.succ m mod 10 = m mod 10 + 1) as [-> ->]
      by (Z.div_mod_to_equations; lia).
    reflexivity.
Qed.

Lemma period_start (sfn P : Z) :
  P <> 0 -> 10 * sfn - 10 * (sfn mod P) = 10 * P * (sfn / P).
Proof. intros HP. pose proof (Z.div_mod sfn P HP). lia. Qed.

(** X5. For an MBSFN subframe (in the sense of [is_mbsfn_subframe]) the
    allocation index that the loop computes for a channel is the number of
    MBSFN subframes between the start of the channel's scheduling period and
    that subframe; in a dedicated cell this needs the period to be a
    multiple of 4 frames, which lines the period up with the CAS pattern. *)
Theorem alloc_index_is_mbsfn_rank (phy : Phy) (tti : Z) (p : srsran.pmch_info_t) :
  is_u32 tti ->
  0 < srsran.mch_sched_period p < 2 ^ 16 ->
  (mbms_dedicated (_cell phy) = true -> (4 | srsran.mch_sched_period p)) ->
  is_mbsfn_subframe phy tti = true ->
  let periodFrame := (tti / 10) mod srsran.mch_sched_period p in
  let n := 10 * periodFrame + tti mod 10 in
  chan_idx (mbms_dedicated (_cell phy)) (tti / 10) (tti mod 10) p =
    mbsfn_count phy (tti - n) (Z.to_nat n).
Proof.
  intros Htti HP H4 Hm periodFrame n.
  pose proof (period_frame_range (tti / 10) _ HP) as Hpf.
  fold periodFrame in Hpf.
  pose proof (subframe_range tti) as Hsf.
  assert (Hn : 0 <= n) by (unfold n; lia).
  assert (Hstart : tti - n = 10 * srsran.mch_sched_period p *
                             ((tti / 10) / srsran.mch_sched_period p)).
  { rewrite <- period_start by lia. fold periodFrame. unfold n.
    pose proof (Z.div_mod tti 10 ltac:(lia)). lia. }
  unfold chan_idx. fold periodFrame.
  destruct (mbms_dedicated (_cell phy)) eqn:Hd.
  - destruct (H4 eq_refl) as [k Hk].
    assert (Hs40 : (tti - n) mod 40 = 0).
    { rewrite Hstart, Hk.
      replace (10 * (k * 4) * (tti / 10 / (k * 4)))
        with (k * (tti / 10 / (k * 4)) * 40) by lia.
      apply Z.mod_mul. lia. }
    assert (Hcas : tti mod 40 <> 0).
    { unfold is_mbsfn_subframe, is_cas_subframe in Hm. rewrite Hd in Hm.
      apply negb_true_iff, Z.eqb_neq in Hm. exact Hm. }
    assert (Hn40 : n mod 40 <> 0).
    { intros Hz. apply Hcas.
      replace tti with ((tti - n) + n) by lia.
      rewrite Zplus_mod, Hs40, Hz. reflexivity. }
    rewrite sf_idx_of_exact; [|lia|exact Hsf|].
    2:{ intros [Hp0 Hs0]. apply Hn40. unfold n. rewrite Hp0, Hs0. reflexivity. }
    rewrite (mbsfn_count_dedicated phy _ _ Hd Hs40), Z2Nat.id by exact Hn.
    unfold alloc_index_spec. fold n.
    unfold n in *. Z.div_mod_to_equations. lia.
  - assert (Hs10 : (tti - n) mod 10 = 0).
    { rewrite Hstart.
      replace (10 * srsran.mch_sched_period p *
               (tti / 10 / srsran.mch_sched_period p))
        with (srsran.mch_sched_period p *
              (tti / 10 / srsran.mch_sched_period p) * 10) by lia.
      apply Z.mod_mul. lia. }
    assert (Hsfm : tti mod 10 = 1 \/ tti mod 10 = 2 \/ tti mod 10 = 3 \/
                   tti mod 10 = 6 \/ tti mod 10 = 7 \/ tti mod 10 = 8).
    { unfold is_mbsfn_subframe in Hm. rewrite Hd in Hm.
      apply andb_true_iff in Hm as [_ Hm].
      repeat (apply orb_true_iff in Hm as [Hm|Hm]);
        apply Z.eqb_eq in Hm; lia. }
    rewrite sf_idx_of_exact; [|lia|exact Hsf|lia].
    rewrite (mbsfn_count_mixed phy _ _ Hd Hs10), Z2Nat.id by exact Hn.
    unfold alloc_index_spec.
    assert (Hq : n / 10 = periodFrame /\ n mod 10 = tti mod 10).
    { unfold n. Z.div_mod_to_equations. lia. }
    destruct Hq as [-> ->].
    unfold mixed_rank_in_frame.
    destruct Hsfm as [H|[H|[H|[H|[H|H]]]]]; rewrite H; cbn; lia.
Qed.

(** X5 on the dedicated cell: [tti = 41], the first subframe after the CAS
    subframe of frame 4, is the 39th MBSFN subframe of a period of 32. *)
Lemma alloc_index_is_mbsfn_rank_witness :
  chan_idx true (41 / 10) (41 mod 10) (srsran.mk_pmch 9 10 32 []) =
  mbsfn_count (phy_scenario true chans_one) 0 41.
Proof.
  assert (H1 : is_u32 41) by (unfold is_u32; lia).
  assert (H2 : 0 < 32 < 2 ^ 16) by lia.
  assert (H3 : (true = true -> (4 | 32))) by (intros _; exists 8; reflexivity).
  exact (alloc_index_is_mbsfn_rank (phy_scenario true chans_one) 41
           (srsran.mk_pmch 9 10 32 []) H1 H2 H3 eq_refl).
Defined.

(** X6. The loop does not look at the classifier: in a dedicated cell a CAS
    subframe ([tti mod 40 = 0]) that is not at the start of the scheduling
    period gets the allocation index of the subframe before it, so it falls
    into the same channel window. *)
Theorem cas_subframe_shares_index (phy : Phy) (tti : Z) (p : srsran.pmch_info_t) :
  is_u32 tti ->
  mbms_dedicated (_cell phy) = true ->
  0 < srsran.mch_sched_period p < 2 ^ 16 ->
  (4 | srsran.mch_sched_period p) ->
  is_cas_subframe phy tti = true ->
  (tti / 10) mod srsran.mch_sched_period p <> 0 ->
  chan_idx true (tti / 10) (tti mod 10) p =
  chan_idx true ((tti - 1) / 10) ((tti - 1) mod 10) p.
Proof.
  intros Htti Hd HP [k Hk] Hcas Hpf.
  unfold is_cas_subframe in Hcas. rewrite Hd in Hcas.
  apply Z.eqb_eq in Hcas.
  pose proof (period_frame_range (tti / 10) _ HP) as Hr.
  assert (Hsf : tti mod 10 = 0) by (Z.div_mod_to_equations; lia).
  assert (Hsf' : (tti - 1) mod 10 = 9) by (Z.div_mod_to_equations; lia).
  assert (Hsfn' : (tti - 1) / 10 = tti / 10 - 1) by (Z.div_mod_to_equations; lia).
  pose proof (Z.mod_pos_bound (tti / 10) (srsran.mch_sched_period p) ltac:(lia))
    as Hlt.
  pose proof (Z.div_mod (tti / 10) (srsran.mch_sched_period p) ltac:(lia)) as Hdm.
  assert (Hpf' : (tti / 10 - 1) mod srsran.mch_sched_period p =
                 (tti / 10) mod srsran.mch_sched_period p - 1).
  { symmetry.
    apply Z.mod_unique_pos with (q := tti / 10 / srsran.mch_sched_period p); lia. }
  assert (Hsfn4 : (tti / 10) mod 4 = 0) by (Z.div_mod_to_equations; lia).
  assert (Hpf4 : ((tti / 10) mod srsran.mch_sched_period p) mod 4 = 0).
  { apply Z.mod_divide; [lia|].
    exists (tti / 10 / 4 - k * (tti / 10 / srsran.mch_sched_period p)).
    pose proof (Z.div_mod (tti / 10) 4 ltac:(lia)) as Hd4.
    assert (Hkq : srsran.mch_sched_period p *
                  (tti / 10 / srsran.mch_sched_period p) =
                  4 * (k * (tti / 10 / srsran.mch_sched_period p)))
      by (rewrite Hk at 1; ring).
    lia. }
  unfold chan_idx. rewrite Hsf, Hsf', Hsfn', Hpf'.
  set (pf := (tti / 10) mod srsran.mch_sched_period p) in *.
  rewrite !sf_idx_of_exact by lia.
  unfold alloc_index_spec. Z.div_mod_to_equations. lia.
Qed.

(** X6 at [tti = 40] with a period of 32 frames: index 38, as [tti = 39]. *)
Lemma cas_subframe_shares_index_witness :
  chan_idx true (40 / 10) (40 mod 10) (srsran.mk_pmch 9 10 32 []) =
  chan_idx true ((40 - 1) / 10) ((40 - 1) mod 10) (srsran.mk_pmch 9 10 32 []).
Proof.
  assert (H1 : is_u32 40) by (unfold is_u32; lia).
  assert (H2 : 0 < 32 < 2 ^ 16) by lia.
  assert (H3 : (4 | 32)) by (exists 8; reflexivity).
  assert (H4 : (40 / 10) mod 32 <> 0) by (vm_compute; congruence).
  exact (cas_subframe_shares_index (phy_scenario true chans_one) 40
           (srsran.mk_pmch 9 10 32 []) H1 eq_refl H2 H3 eq_refl H4).
Defined.

(** ** What the scheduling function reads *)


Lemma set_mbsfn_config_fields (phy : Phy) (mcch : srsran.mcch_msg_t) :
  let phy' := set_mbsfn_config phy mcch in
  _cell phy' = _cell phy /\ _decode_mcch phy' = _decode_mcch phy /\
  _tti phy' = _tti phy /\ _mcch_table phy' = _mcch_table phy /\
  _mcch_configured phy' = _mcch_configured phy /\ _sib13 phy' = _sib13 phy /\
  _mcch phy' = mcch /\ _mch_configured phy' = true.
Proof.
  unfold set_mbsfn_config.
  destruct (mch_info_of 0 _ _ _) as [info d]. cbn. repeat split.
Qed.

(** X7. After [reset] nothing is scheduled: every TTI gives the initial
    disabled decision and leaves [area] alone, also after a new MCCH message
    has been stored with [set_mbsfn_config]; and when SIB13 arrives again
    after a [reset], the MCCH message kept from before the [reset] is not
    used: a decision that is not MCCH is disabled. *)
Theorem reset_disables (api : srsran_api) (phy : Phy) :
  (forall tti area,
     mbsfn_config_for_tti (reset phy) tti area = Some (cfg_init, area)) /\
  (forall mcch tti area,
     mbsfn_config_for_tti (set_mbsfn_config (reset phy) mcch) tti area =
       Some (cfg_init, area)) /\
  (forall sib13 tti area cfg area',
     mbsfn_config_for_tti (set_mch_scheduling_info api (reset phy) sib13)
       tti area = Some (cfg, area') ->
     is_mcch cfg = false -> enable cfg = false /\ area' = area).
Proof.
  split; [|split].
  - intros tti area. now apply config_unconfigured.
  - intros mcch tti area. apply config_unconfigured.
    now rewrite (proj1 (proj2 (proj2 (proj2 (proj2
                   (set_mbsfn_config_fields (reset phy) mcch)))))).
  - intros sib13 tti area cfg area' Hres Hmc.
    assert (Hmch : _mch_configured
                     (set_mch_scheduling_info api (reset phy) sib13) = false).
    { unfold set_mch_scheduling_info.
      destruct (negb _); destruct (0 <? _); reflexivity. }
    destruct (config_result_cases _ _ _ _ _ Hres)
      as [(_ & -> & ->)|[(_ & _ & _ & -> & ->)|[(_ & -> & ->)|
          (_ & (_ & _ & Hm) & _)]]];
      try (split; reflexivity); try discriminate.
    rewrite Hmch in Hm. discriminate.
Qed.

Lemma reset_disables_witness :
  mbsfn_config_for_tti (reset (phy_scenario true chans_two)) 11 4 =
    Some (cfg_init, 4).
Proof.
  exact (proj1 (reset_disables api_scenario (phy_scenario true chans_two)) 11 4).
Defined.



(** ** Destinations and the reporting view *)

Lemma dests_at_fst (d : gmap Z (gmap Z string)) (i lcid : Z) :
  fst (dests_at d i lcid) = dest_view d i lcid.
Proof. reflexivity. Qed.

(** Reading a destination creates empty entries and changes no label. *)
Lemma dests_at_view (d : gmap Z (gmap Z string)) (i lcid i' lcid' : Z) :
  dest_view (snd (dests_at d i lcid)) i' lcid' = dest_view d i' lcid'.
Proof.
  unfold dests_at, dest_view. cbn [snd].
  destruct (decide (i = i')) as [<-|Hi].
  - rewrite lookup_insert_eq. cbn [from_option Datatypes.id].
    destruct (decide (lcid = lcid')) as [<-|Hl].
    + rewrite lookup_insert_eq. reflexivity.
    + rewrite lookup_insert_ne by exact Hl. reflexivity.
  - rewrite lookup_insert_ne by exact Hi. reflexivity.
Qed.

Lemma dests_at_present (d : gmap Z (gmap Z string)) (i lcid : Z) :
  dest_present (snd (dests_at d i lcid)) i lcid.
Proof.
  unfold dests_at, dest_present. cbn [snd].
  eexists _, _. rewrite lookup_insert_eq. split; [reflexivity|].
  apply lookup_insert_eq.
Qed.

Lemma dests_at_keeps (d : gmap Z (gmap Z string)) (i lcid i' lcid' : Z) :
  dest_present d i' lcid' -> dest_present (snd (dests_at d i lcid)) i' lcid'.
Proof.
  intros (inner & dest & Hi & Hl). unfold dests_at, dest_present. cbn [snd].
  destruct (decide (i = i')) as [<-|Hne].
  - rewrite Hi. cbn [from_option Datatypes.id]. rewrite lookup_insert_eq.
    destruct (decide (lcid = lcid')) as [<-|Hnl].
    + eexists _, _. split; [reflexivity|]. apply lookup_insert_eq.
    + eexists _, dest. split; [reflexivity|].
      rewrite lookup_insert_ne by exact Hnl. exact Hl.
  - exists inner, dest. rewrite lookup_insert_ne by exact Hne. split; assumption.
Qed.

Lemma dests_at_id (d : gmap Z (gmap Z string)) (i lcid : Z) :
  dest_present d i lcid -> snd (dests_at d i lcid) = d.
Proof.
  intros (inner & dest & Hi & Hl). unfold dests_at. cbn [snd].
  rewrite Hi. cbn [from_option Datatypes.id]. rewrite Hl. cbn [from_option Datatypes.id].
  rewrite (insert_id inner lcid dest Hl). now apply insert_id.
Qed.

(** The inner loop is a [map] over the sessions that reads the
    destinations as they were before it. *)
Lemma mtchs_of_view (i : Z) (sessions : list srsran.mbms_session_info_t)
    (d : gmap Z (gmap Z string)) (acc : list mtch_info_t) :
  fst (mtchs_of i sessions d acc) = acc ++ mtchs_view d i sessions /\
  (forall i' l', dest_view (snd (mtchs_of i sessions d acc)) i' l' =
                 dest_view d i' l') /\
  (forall i' l', dest_present d i' l' ->
                 dest_present (snd (mtchs_of i sessions d acc)) i' l') /\
  Forall (fun s => dest_present (snd (mtchs_of i sessions d acc)) i
                     (srsran.lc_ch_id s)) sessions /\
  (Forall (fun s => dest_present d i (srsran.lc_ch_id s)) sessions ->
   snd (mtchs_of i sessions d acc) = d).
Proof.
  revert d acc. induction sessions as [|s sessions IH]; intros d acc.
  - cbn. rewrite app_nil_r. repeat split; auto.
  - cbn [mtchs_of].
    pose proof (dests_at_fst d i (srsran.lc_ch_id s)) as Hf.
    pose proof (dests_at_view d i (srsran.lc_ch_id s)) as Hv.
    pose proof (dests_at_present d i (srsran.lc_ch_id s)) as Hp.
    pose proof (dests_at_keeps d i (srsran.lc_ch_id s)) as Hk.
    pose proof (dests_at_id d i (srsran.lc_ch_id s)) as Hid.
    destruct (dests_at d i (srsran.lc_ch_id s)) as [dest d']. cbn in *.
    subst dest.
    destruct (IH d' (acc ++ [mk_mtch (tmgi_string (srsran.tmgi s))
                               (dest_view d i (srsran.lc_ch_id s))
                               (srsran.lc_ch_id s)]))
      as (Hfst & Hview & Hkeep & Hall & Hsame).
    split; [|split; [|split; [|split]]].
    + rewrite Hfst, <- app_assoc. cbn. f_equal. f_equal.
      unfold mtchs_view. apply map_ext. intros s'.
      now rewrite Hv.
    + intros i' l'. now rewrite Hview, Hv.
    + intros i' l' H. now apply Hkeep, Hk.
    + constructor; [now apply Hkeep | exact Hall].
    + intros Hpres. inversion Hpres as [|? ? H1 H2]; subst.
      rewrite (Hid H1) in *. now apply Hsame.
Qed.

Lemma mch_info_of_view (i : Z) (pmchs : list srsran.pmch_info_t)
    (d : gmap Z (gmap Z string)) (acc : list mch_info_t) :
  fst (mch_info_of i pmchs d acc) = acc ++ mch_info_view d i pmchs /\
  (forall i' l', dest_view (snd (mch_info_of i pmchs d acc)) i' l' =
                 dest_view d i' l') /\
  (forall i' l', dest_present d i' l' ->
                 dest_present (snd (mch_info_of i pmchs d acc)) i' l') /\
  channels_present (snd (mch_info_of i pmchs d acc)) i pmchs /\
  (channels_present d i pmchs -> snd (mch_info_of i pmchs d acc) = d).
Proof.
  revert i d acc. induction pmchs as [|p pmchs IH]; intros i d acc.
  - cbn. rewrite app_nil_r. repeat split; auto.
    intros k p Hk. discriminate.
  - cbn [mch_info_of].
    destruct (mtchs_of_view i (srsran.mbms_session_info_list p) d [])
      as (Hf & Hv & Hk & Hall & Hid).
    destruct (mtchs_of i (srsran.mbms_session_info_list p) d []) as [ms d'].
    cbn in Hf, Hv, Hk, Hall, Hid. subst ms.
    destruct (IH (i + 1) d' (acc ++ [mk_mch (srsran.data_mcs p)
                 (mtchs_view d i (srsran.mbms_session_info_list p))]))
      as (Hfst & Hview & Hkeep & Hpres & Hsame).
    split; [|split; [|split; [|split]]].
    + rewrite Hfst, <- app_assoc. cbn. f_equal. f_equal.
      clear -Hv. generalize (i + 1). induction pmchs as [|q pmchs IHp];
        intros j; [reflexivity|].
      cbn. f_equal; [|apply IHp]. f_equal.
      unfold mtchs_view. apply map_ext. intros s. now rewrite Hv.
    + intros i' l'. now rewrite Hview, Hv.
    + intros i' l' H. now apply Hkeep, Hk.
    + intros k q Hq. destruct k as [|k].
      * injection Hq as <-. rewrite Z.add_0_r.
        eapply Forall_impl; [exact Hall|]. intros s Hs. now apply Hkeep.
      * cbn in Hq. specialize (Hpres k q Hq).
        replace (i + Z.of_nat (S k)) with (i + 1 + Z.of_nat k) by lia.
        exact Hpres.
    + intros Hcp.
      assert (Hd : d' = d).
      { apply Hid. specialize (Hcp 0%nat p eq_refl).
        now rewrite Z.add_0_r in Hcp. }
      subst d'. apply Hsame. intros k q Hq.
      specialize (Hcp (S k) q Hq).
      replace (i + Z.of_nat (S k)) with (i + 1 + Z.of_nat k) in Hcp by lia.
      exact Hcp.
Qed.

Lemma mch_info_view_ext (d1 d2 : gmap Z (gmap Z string)) (i : Z)
    (pmchs : list srsran.pmch_info_t) :
  (forall i' l', dest_view d1 i' l' = dest_view d2 i' l') ->
  mch_info_view d1 i pmchs = mch_info_view d2 i pmchs.
Proof.
  intros Hv. revert i. induction pmchs as [|p pmchs IH]; intros i;
    [reflexivity|].
  cbn. f_equal; [|apply IH]. f_equal.
  unfold mtchs_view. apply map_ext. intros s. now rewrite Hv.
Qed.

Lemma mch_info_view_lookup (d : gmap Z (gmap Z string)) (i : Z)
    (pmchs : list srsran.pmch_info_t) (k : nat) (p : srsran.pmch_info_t) :
  pmchs !! k = Some p ->
  mch_info_view d i pmchs !! k =
    Some (mk_mch (srsran.data_mcs p)
            (mtchs_view d (i + Z.of_nat k) (srsran.mbms_session_info_list p))).
Proof.
  revert i k. induction pmchs as [|q pmchs IH]; intros i k Hk; [discriminate|].
  destruct k as [|k].
  - injection Hk as <-. cbn. now rewrite Z.add_0_r.
  - cbn in Hk. cbn [mch_info_view].
    replace (i + Z.of_nat (S k)) with (i + 1 + Z.of_nat k) by lia.
    exact (IH (i + 1) k Hk).
Qed.

Lemma mch_info_view_length (d : gmap Z (gmap Z string)) (i : Z)
    (pmchs : list srsran.pmch_info_t) :
  length (mch_info_view d i pmchs) = length pmchs.
Proof.
  revert i. induction pmchs as [|p pmchs IH]; intros i; [reflexivity|].
  cbn. now rewrite IH.
Qed.

Lemma set_mbsfn_config_info (phy : Phy) (mcch : srsran.mcch_msg_t) :
  _mch_info (set_mbsfn_config phy mcch) =
    mch_info_view (_dests phy) 0 (srsran.pmch_info_list mcch) /\
  (forall i l, dest_view (_dests (set_mbsfn_config phy mcch)) i l =
               dest_view (_dests phy) i l) /\
  channels_present (_dests (set_mbsfn_config phy mcch)) 0
                   (srsran.pmch_info_list mcch).
Proof.
  unfold set_mbsfn_config.
  destruct (mch_info_of_view 0 (srsran.pmch_info_list mcch) (_dests phy) [])
    as (Hf & Hv & _ & Hp & _).
  destruct (mch_info_of 0 _ _ _) as [info d]. cbn in *.
  repeat split; assumption.
Qed.

(** X9. [set_mbsfn_config] rebuilds the reporting view from the message
    alone: one entry per channel, in order, with the channel's data coding
    scheme and one sub-entry per session, in order, with the TMGI string,
    the logical channel id and the destination stored under (channel index,
    logical channel id) before the call, or the empty string when there is
    none. What [_mch_info] held before does not matter, and although the
    lookups create entries in [_dests], no destination label is changed. *)
Theorem reporting_view (phy : Phy) (mcch : srsran.mcch_msg_t) :
  let phy' := set_mbsfn_config phy mcch in
  length (_mch_info phy') = srsran.nof_pmch_info mcch /\
  (forall (i : nat) p,
     srsran.pmch_info_list mcch !! i = Some p ->
     exists mch,
       _mch_info phy' !! i = Some mch /\
       mch_mcs mch = srsran.data_mcs p /\
       length (mtchs mch) = length (srsran.mbms_session_info_list p) /\
       forall (j : nat) s,
         srsran.mbms_session_info_list p !! j = Some s ->
         mtchs mch !! j =
           Some (mk_mtch (tmgi_string (srsran.tmgi s))
                   (dest_view (_dests phy) (Z.of_nat i) (srsran.lc_ch_id s))
                   (srsran.lc_ch_id s))) /\
  (forall i l, dest_view (_dests phy') i l = dest_view (_dests phy) i l).
Proof.
  intros phy'. destruct (set_mbsfn_config_info phy mcch) as (Hinfo & Hview & _).
  fold phy' in Hinfo, Hview.
  split; [|split; [|exact Hview]].
  - rewrite Hinfo. apply mch_info_view_length.
  - intros i p Hp. eexists. rewrite Hinfo.
    split; [exact (mch_info_view_lookup _ _ _ _ _ Hp)|]. cbn.
    split; [reflexivity|]. unfold mtchs_view.
    split; [apply length_map|].
    intros j s Hs. rewrite list_lookup_fmap, Hs. reflexivity.
Qed.

(** X9 on three channels: channel 0 has no session and keeps its coding
    scheme 10; channel 1 has two sessions, no destination was set and the
    entries carry the empty string. *)
Lemma reporting_view_witness :
  (exists mch,
     _mch_info (set_mbsfn_config phy_new (srsran.mk_mcch chans_three)) !! 0%nat
       = Some mch /\
     mch_mcs mch = 10 /\ length (mtchs mch) = 0%nat) /\
  (exists mch,
     _mch_info (set_mbsfn_config phy_new (srsran.mk_mcch chans_three)) !! 1%nat
       = Some mch /\
     mch_mcs mch = 12 /\ length (mtchs mch) = 2%nat /\
     mtchs mch !! 1%nat = Some (mk_mtch "00000109f165" EmptyString 2)).
Proof.
  pose proof (proj1 (proj2 (reporting_view phy_new (srsran.mk_mcch chans_three))))
    as H.
  split.
  - destruct (H 0%nat _ eq_refl) as (mch & H1 & H2 & H3 & _).
    exists mch. repeat split; assumption.
  - destruct (H 1%nat _ eq_refl) as (mch & H1 & H2 & H3 & H4).
    exists mch. repeat (split; [assumption|]).
    exact (H4 1%nat _ eq_refl).
Defined.

Lemma set_dest_for_lcid_view (phy : Phy) (i lcid : Z) (dest : string) (i' l' : Z) :
  dest_view (_dests (set_dest_for_lcid phy i lcid dest)) i' l' =
    if decide (i = i' /\ lcid = l') then dest else dest_view (_dests phy) i' l'.
Proof.
  unfold set_dest_for_lcid, dest_view. cbn [_dests].
  destruct (decide (i = i')) as [<-|Hi].
  - rewrite lookup_insert_eq. cbn [from_option Datatypes.id].
    destruct (decide (lcid = l')) as [<-|Hl].
    + rewrite lookup_insert_eq, decide_True by easy. reflexivity.
    + rewrite lookup_insert_ne, decide_False by tauto. reflexivity.
  - rewrite lookup_insert_ne, decide_False by tauto. reflexivity.
Qed.

(** X10. A destination set with [set_dest_for_lcid] for channel [i] and
    logical channel [lcid] is the destination that the next
    [set_mbsfn_config] reports for every session of channel [i] with that
    logical channel id; the destinations under all other keys are as
    before. *)
Theorem dest_round_trip (phy : Phy) (i j : nat) (lcid : Z) (dest : string)
    (mcch : srsran.mcch_msg_t) (p : srsran.pmch_info_t)
    (s : srsran.mbms_session_info_t) :
  srsran.pmch_info_list mcch !! i = Some p ->
  srsran.mbms_session_info_list p !! j = Some s ->
  srsran.lc_ch_id s = lcid ->
  let phy1 := set_dest_for_lcid phy (Z.of_nat i) lcid dest in
  (exists mch m,
     _mch_info (set_mbsfn_config phy1 mcch) !! i = Some mch /\
     mtchs mch !! j = Some m /\ mtch_dest m = dest /\ mtch_lcid m = lcid) /\
  (forall i' l', ~ (Z.of_nat i = i' /\ lcid = l') ->
     dest_view (_dests phy1) i' l' = dest_view (_dests phy) i' l').
Proof.
  intros Hp Hs Hl phy1. split.
  - destruct (set_mbsfn_config_info phy1 mcch) as (Hinfo & _).
    eexists _, _. rewrite Hinfo.
    split; [exact (mch_info_view_lookup _ _ _ _ _ Hp)|].
    cbn [mtchs]. unfold mtchs_view.
    rewrite list_lookup_fmap, Hs.
    split; [reflexivity|]. cbn [mtch_dest mtch_lcid]. split; [|exact Hl].
    unfold phy1. rewrite set_dest_for_lcid_view, decide_True; [reflexivity|].
    split; [lia | now rewrite Hl].
  - intros i' l' Hne. unfold phy1.
    now rewrite set_dest_for_lcid_view, decide_False.
Qed.

Lemma dest_round_trip_witness :
  exists mch m,
    _mch_info (set_mbsfn_config
                 (set_dest_for_lcid phy_new 0 1 "239.11.4.50:9988")
                 mcch_901_56) !! 0%nat = Some mch /\
    mtchs mch !! 0%nat = Some m /\
    mtch_dest m = "239.11.4.50:9988"%string /\ mtch_lcid m = 1.
Proof.
  exact (proj1 (dest_round_trip phy_new 0 0 1 "239.11.4.50:9988" mcch_901_56
                  _ _ eq_refl eq_refl eq_refl)).
Defined.

(** X11. Storing the same MCCH message a second time changes nothing: the
    entries that the first call created in [_dests] are found by the
    second, and the view comes out the same. *)
Theorem set_mbsfn_config_idempotent (phy : Phy) (mcch : srsran.mcch_msg_t) :
  set_mbsfn_config (set_mbsfn_config phy mcch) mcch = set_mbsfn_config phy mcch.
Proof.
  destruct (set_mbsfn_config_info phy mcch) as (Hinfo & Hview & Hpres).
  destruct (set_mbsfn_config_fields phy mcch)
    as (Hc & Hd & Ht & Htab & Hmc & Hs & Hm & Hmch).
  set (phy1 := set_mbsfn_config phy mcch) in *.
  unfold set_mbsfn_config at 1.
  destruct (mch_info_of_view 0 (srsran.pmch_info_list mcch) (_dests phy1) [])
    as (Hf & _ & _ & _ & Hid).
  specialize (Hid Hpres).
  destruct (mch_info_of 0 _ (_dests phy1) []) as [info d]. cbn in Hf, Hid.
  subst info d. unfold with_mcch.
  rewrite (mch_info_view_ext _ _ 0 _ Hview), <- Hinfo.
  fold phy1. rewrite <- Hm at 1. rewrite <- Hmch.
  destruct phy1. reflexivity.
Qed.

Lemma set_mbsfn_config_idempotent_witness :
  _dests (set_mbsfn_config (set_mbsfn_config phy_new mcch_901_56) mcch_901_56) =
  _dests (set_mbsfn_config phy_new mcch_901_56).
Proof.
  exact (f_equal _dests (set_mbsfn_config_idempotent phy_new mcch_901_56)).
Defined.

(** ** Effects of the acquisition calls *)





(** X14. After a successful [synchronize_subframe] the stored TTI is the
    first subframe of a frame: a multiple of 10 between 0 and 10230. In a
    mixed cell the classifier calls it CAS and not MBSFN; in a dedicated
    cell it is CAS exactly when the frame number is a multiple of 4. The
    SIB13, the MCCH table, the MCCH message and the flags are untouched. *)
Theorem synchronized_tti (api : srsran_api) (io : sync_io) (phy : Phy) :
  let phy' := snd (synchronize_subframe api io phy) in
  fst (synchronize_subframe api io phy) = true ->
  (0 <= _tti phy' <= 10230 /\ _tti phy' mod 10 = 0) /\
  (mbms_dedicated (_cell phy') = false ->
   is_cas_subframe phy' (_tti phy') = true /\
   is_mbsfn_subframe phy' (_tti phy') = false) /\
  (mbms_dedicated (_cell phy') = true ->
   (is_cas_subframe phy' (_tti phy') = true <-> (_tti phy' / 10) mod 4 = 0)) /\
  (_sib13 phy' = _sib13 phy /\ _mcch_table phy' = _mcch_table phy /\
   _mcch phy' = _mcch phy /\ _mcch_configured phy' = _mcch_configured phy /\
   _mch_configured phy' = _mch_configured phy /\
   _decode_mcch phy' = _decode_mcch phy).
Proof.
  intros phy'. unfold phy', synchronize_subframe.
  destruct (zerocopy_ret io <? 0); [discriminate|].
  destruct (zerocopy_ret io =? 1); [|discriminate].
  destruct (sfidx io =? 0); [|discriminate].
  destruct (mib_decode_ret io =? 1); [|discriminate].
  assert (Hgen : forall c sfn,
    let q := with_tti (with_cell phy c) (mul32 (sfn mod 1024) kSubframesPerFrame) in
    (0 <= _tti q <= 10230 /\ _tti q mod 10 = 0) /\
    (mbms_dedicated (_cell q) = false ->
     is_cas_subframe q (_tti q) = true /\ is_mbsfn_subframe q (_tti q) = false) /\
    (mbms_dedicated (_cell q) = true ->
     (is_cas_subframe q (_tti q) = true <-> (_tti q / 10) mod 4 = 0)) /\
    (_sib13 q = _sib13 phy /\ _mcch_table q = _mcch_table phy /\
     _mcch q = _mcch phy /\ _mcch_configured q = _mcch_configured phy /\
     _mch_configured q = _mch_configured phy /\
     _decode_mcch q = _decode_mcch phy)).
  { intros c sfn q. unfold q. cbn [_tti _cell with_tti with_cell
      _sib13 _mcch_table _mcch _mcch_configured _mch_configured _decode_mcch].
    rewrite tti_of_sfn.
    pose proof (Z.mod_pos_bound sfn 1024 ltac:(lia)) as Hb.
    assert (Hm10 : (sfn mod 1024 * 10) mod 10 = 0) by (apply Z.mod_mul; lia).
    split; [split; [lia | exact Hm10]|].
    split; [|split; [|repeat split]].
    - intros Hd. unfold is_mbsfn_subframe, is_cas_subframe.
      cbn [_cell with_tti with_cell].
      rewrite Hd, Hm10. split; reflexivity.
    - intros Hd. unfold is_cas_subframe. cbn [_cell with_tti with_cell].
      rewrite Hd.
      rewrite Z.eqb_eq, Z.div_mul by lia.
      split; intros H; Z.div_mod_to_equations; lia. }
  intros _.
  destruct (mbms_dedicated (_cell phy)).
  - destruct (srsran_pbch_mib_mbms_unpack _ _ _ _) as [c sfn0]. cbn [snd].
    rewrite sfn_dedicated_spec. apply Hgen.
  - destruct (srsran_pbch_mib_unpack _ _ _) as [c sfn0]. cbn [snd].
    rewrite sfn_mixed_spec. apply Hgen.
Qed.

Lemma synchronized_tti_witness :
  0 <= _tti (snd (synchronize_subframe api_prb25 io_sync
                    (phy_scenario true chans_one))) <= 10230 /\
  _tti (snd (synchronize_subframe api_prb25 io_sync
               (phy_scenario true chans_one))) mod 10 = 0.
Proof.
  exact (proj1 (synchronized_tti api_prb25 io_sync
                  (phy_scenario true chans_one) eq_refl)).
Defined.

(** ** The CINR buffer of the REST handler *)

Lemma add_cinr_value_window {A : Type} (N : nat) (buf : list A) (x : A) :
  (length buf <= N + 1)%nat ->
  add_cinr_value N buf x = drop (length (buf ++ [x]) - (N + 1)) (buf ++ [x]) /\
  (length (add_cinr_value N buf x) <= N + 1)%nat.
Proof.
  intros Hlen. unfold add_cinr_value. rewrite length_app. cbn [length].
  destruct (Nat.ltb_spec N (length buf)) as [Hlt|Hge].
  - replace (length buf + 1 - (N + 1))%nat with 1%nat by lia.
    destruct buf as [|b buf]; [cbn in Hlt; lia|].
    cbn. rewrite length_app, drop_0. cbn in *. split; [reflexivity | lia].
  - replace (length buf + 1 - (N + 1))%nat with 0%nat by lia.
    rewrite drop_0, length_app. cbn. split; [reflexivity | lia].
Qed.

Lemma add_cinr_values_window {A : Type} (N : nat) (xs buf : list A) :
  (length buf <= N + 1)%nat ->
  foldl (add_cinr_value N) buf xs =
    drop (length (buf ++ xs) - (N + 1)) (buf ++ xs).
Proof.
  revert buf. induction xs as [|x xs IH]; intros buf Hlen.
  - cbn. rewrite app_nil_r.
    replace (length buf - (N + 1))%nat with 0%nat by lia. now rewrite drop_0.
  - cbn [foldl].
    destruct (add_cinr_value_window N buf x Hlen) as [Heq Hle].
    rewrite IH by exact Hle. rewrite Heq.
    rewrite <- drop_app_le by (rewrite length_app; cbn; lia).
    rewrite drop_drop, <- app_assoc. cbn [app].
    f_equal. rewrite !length_app, length_drop, length_app. cbn [length].
    lia.
Qed.

(** X15. [add_cinr_value] keeps a sliding window: starting from an empty
    buffer, after the values [xs] have been added the buffer holds the last
    [CINR_RAVG_CNT + 1] of them, in the order of arrival (all of them while
    there are fewer); its size never goes beyond [CINR_RAVG_CNT + 1]. *)
Theorem cinr_window (A : Type) (CINR_RAVG_CNT : nat) (xs : list A) :
  foldl (add_cinr_value CINR_RAVG_CNT) [] xs =
    drop (length xs - (CINR_RAVG_CNT + 1)) xs /\
  (length (foldl (add_cinr_value CINR_RAVG_CNT) [] xs) <= CINR_RAVG_CNT + 1)%nat.
Proof.
  assert (H : foldl (add_cinr_value CINR_RAVG_CNT) [] xs =
              drop (length xs - (CINR_RAVG_CNT + 1)) xs).
  { rewrite add_cinr_values_window by (cbn; lia). reflexivity. }
  split; [exact H|]. rewrite H, length_drop. lia.
Qed.

Lemma cinr_window_witness :
  foldl (add_cinr_value 2) [] [10; 11; 12; 13; 14] = [12; 13; 14].
Proof. exact (proj1 (cinr_window Z 2 [10; 11; 12; 13; 14])). Defined.

(** ** Distinct groups, distinct TMGI strings *)

Lemma hex_value_digit (d : Z) : is_nibble d -> hex_value (hex_digit d) = d.
Proof.
  unfold is_nibble. intros Hd.
  assert (H : d = 0 \/ d = 1 \/ d = 2 \/ d = 3 \/ d = 4 \/ d = 5 \/ d = 6 \/
              d = 7 \/ d = 8 \/ d = 9 \/ d = 10 \/ d = 11 \/ d = 12 \/
              d = 13 \/ d = 14 \/ d = 15) by lia.
  repeat (destruct H as [->|H]; [reflexivity|]). subst d. reflexivity.
Qed.

Lemma hex_digit_inj (a b : Z) :
  is_nibble a -> is_nibble b -> hex_digit a = hex_digit b -> a = b.
Proof.
  intros Ha Hb H. apply (f_equal hex_value) in H.
  now rewrite !hex_value_digit in H.
Qed.

Lemma byte_nibbles_inj (a b : Z) :
  is_u8 a -> is_u8 b ->
  hex_digit (a / 16) = hex_digit (b / 16) ->
  hex_digit (a mod 16) = hex_digit (b mod 16) -> a = b.
Proof.
  unfold is_u8. change (2 ^ 8) with 256. intros Ha Hb Hh Hl.
  apply hex_digit_inj in Hh;
    [|unfold is_nibble; Z.div_mod_to_equations; lia ..].
  apply hex_digit_inj in Hl;
    [|unfold is_nibble; Z.div_mod_to_equations; lia ..].
  Z.div_mod_to_equations. lia.
Qed.

(** X16. Two TMGIs (PLMN digits nibbles, service identifier three bytes)
    are printed as the same string exactly when they have the same service
    identifier, the same MCC digits, the same MNC digits 1 and 2 and the
    same third MNC nibble, which is MNC digit 3 or the filler 15 when the
    MNC has two digits. *)
Theorem tmgi_string_injective (t1 t2 : srsran.tmgi_t) :
  tmgi_ok t1 -> tmgi_ok t2 ->
  (tmgi_string t1 = tmgi_string t2 <->
   srsran.serviced_id t1 = srsran.serviced_id t2 /\
   srsran.mcc (srsran.plmn_id_explicit_value t1) =
     srsran.mcc (srsran.plmn_id_explicit_value t2) /\
   fst (srsran.mnc (srsran.plmn_id_explicit_value t1)) =
     fst (srsran.mnc (srsran.plmn_id_explicit_value t2)) /\
   tmgi_mnc3 t1 = tmgi_mnc3 t2).
Proof.
  intros H1 H2.
  rewrite (tmgi_string_packed t1 H1), (tmgi_string_packed t2 H2).
  destruct t1 as [[[[a0 a1] a2] [[b0 b1] b2] nd] [[s0 s1] s2]].
  destruct t2 as [[[[a0' a1'] a2'] [[b0' b1'] b2'] nd'] [[s0' s1'] s2']].
  unfold tmgi_ok, tmgi_packed, tmgi_mnc3 in *. cbn in H1, H2 |- *.
  destruct H1 as (Ha0 & Ha1 & Ha2 & Hb0 & Hb1 & Hb2 & Hs0 & Hs1 & Hs2).
  destruct H2 as (Ha0' & Ha1' & Ha2' & Hb0' & Hb1' & Hb2' & Hs0' & Hs1' & Hs2').
  assert (Hn : is_nibble (if nd =? 2 then 15 else b2))
    by (destruct (nd =? 2); [unfold is_nibble; lia | assumption]).
  assert (Hn' : is_nibble (if nd' =? 2 then 15 else b2'))
    by (destruct (nd' =? 2); [unfold is_nibble; lia | assumption]).
  split.
  - intros H.
    injection H as E1 E2 E3 E4 E5 E6 E7 E8 E9 E10 E11 E12.
    apply hex_digit_inj in E7, E8, E9, E10, E11, E12; try assumption.
    pose proof (byte_nibbles_inj _ _ Hs0 Hs0' E1 E2).
    pose proof (byte_nibbles_inj _ _ Hs1 Hs1' E3 E4).
    pose proof (byte_nibbles_inj _ _ Hs2 Hs2' E5 E6).
    subst. repeat split; congruence.
  - intros (Es & Ea & Eb & En).
    injection Es as -> -> ->. injection Ea as -> -> ->.
    injection Eb as -> ->. rewrite En. reflexivity.
Qed.

(** X16 on MCC 901 / MNC 56 and MCC 262 / MNC 001: different strings. *)
Lemma tmgi_string_injective_witness :
  tmgi_string tmgi_901_56 <> tmgi_string tmgi_262_001.
Proof.
  assert (H1 : tmgi_ok tmgi_901_56)
    by (unfold tmgi_ok, is_nibble, is_u8; cbn; lia).
  assert (H2 : tmgi_ok tmgi_262_001)
    by (unfold tmgi_ok, is_nibble, is_u8; cbn; lia).
  intros H.
  apply (proj1 (tmgi_string_injective tmgi_901_56 tmgi_262_001 H1 H2)) in H.
  destruct H as (Hs & _). discriminate.
Defined.

(** ** Configuration replaces what was there *)




(** ** The method leaves the object alone *)

Lemma config_area_irrelevant (phy : Phy) (tti area1 area2 : Z) :
  fst <$> mbsfn_config_for_tti phy tti area1 =
  fst <$> mbsfn_config_for_tti phy tti area2.
Proof.
  unfold mbsfn_config_for_tti.
  destruct (negb (_mcch_configured phy)); [reflexivity|].
  destruct (umod _ _) as [r|]; [|reflexivity]. cbn.
  destruct (_ && _).
  - destruct (_decode_mcch phy); reflexivity.
  - destruct (_mch_configured phy); [|reflexivity].
    destruct (pmch_scan _ _ _ _ _ _ _) as [[[i mcs]|]|]; reflexivity.
Qed.

Ltac unfold_m :=
  unfold mbind, PhyM_bind, bindM, member, liftM, mret, PhyM_ret, retM.

(** The loop as a program gives what [pmch_scan] gives and hands the
    object back as it got it. *)
Lemma pmch_loop_m_spec (fuel : nat) (sfn sf : Z) (i : nat)
    (cfg : raw.srsran_mbsfn_cfg_t) (area : Z) (phy : Phy) :
  (length (channels phy) - i < fuel)%nat ->
  pmch_loop_m fuel sfn sf i cfg area phy =
  match pmch_scan (mbms_dedicated (_cell phy))
          (srsran.sig_mcs (srsran.mcch_cfg (area_info phy)))
          (channels phy) sfn sf i (drop i (channels phy)) with
  | None => None
  | Some None => Some ((cfg, area), phy)
  | Some (Some (k, mcs)) =>
      Some ((raw.mk true (raw.is_mcch cfg) (raw.mbsfn_area_id cfg)
               (raw.non_mbsfn_region_length cfg) mcs, Z.of_nat k), phy)
  end.
Proof.
  revert i. induction fuel as [|fuel IH]; intros i Hfuel; [lia|].
  cbn [pmch_loop_m]. unfold_m. cbn beta.
  unfold srsran.nof_pmch_info. fold (channels phy).
  destruct (Nat.ltb_spec i (length (channels phy))) as [Hlt|Hge].
  - destruct (lookup_lt_is_Some_2 _ _ Hlt) as [p Hp].
    change (srsran.pmch_info_list (_mcch phy)) with (channels phy).
    change (srsran.mbsfn_area_info_list_0 (_sib13 phy)) with (area_info phy).
    rewrite Hp, (drop_S _ _ _ Hp). cbn [pmch_scan]. cbv beta iota.
    destruct (umod sfn (srsran.mch_sched_period p)) as [fn|]; [|reflexivity].
    cbn [mbind option_bind]. cbv beta iota.
    destruct (sf_idx_of _ fn sf <=? srsran.sf_alloc_end p).
    + change (srsran.pmch_info_list (_mcch phy)) with (channels phy).
      change (srsran.mbsfn_area_info_list_0 (_sib13 phy)) with (area_info phy).
      destruct (is_sig_subframe _ _ _ _ _); reflexivity.
    + apply IH. lia.
  - rewrite drop_ge by lia. reflexivity.
Qed.

(** One call as a program: the decision is the one of
    [mbsfn_config_for_tti], laid over the stack content, and the object
    comes back unchanged. *)
Lemma mbsfn_config_for_tti_m_spec (stack : raw.srsran_mbsfn_cfg_t)
    (tti area : Z) (phy : Phy) :
  mbsfn_config_for_tti_m stack tti area phy =
  match mbsfn_config_for_tti phy tti area with
  | Some (cfg, a) => Some ((fill stack cfg, a), phy)
  | None => None
  end.
Proof.
  unfold mbsfn_config_for_tti_m, mbsfn_config_for_tti. unfold_m. cbn beta.
  destruct (negb (_mcch_configured phy)); [reflexivity|].
  destruct (umod _ _) as [r|]; [|reflexivity]. cbn [mbind option_bind].
  destruct (_ && _).
  - destruct (_decode_mcch phy); reflexivity.
  - destruct (_mch_configured phy); [|reflexivity].
    fold (channels phy) (area_info phy).
    pose proof (pmch_loop_m_spec (S (srsran.nof_pmch_info (_mcch phy)))
                  (tti / 10) (tti mod 10) 0
                  (raw.mk false false (srsran.mbsfn_area_id (area_info phy))
                     (srsran.non_mbsfn_region_len (area_info phy))
                     (raw.mbsfn_mcs stack)) area phy) as Hloop.
    unfold srsran.nof_pmch_info in *. fold (channels phy) in *.
    rewrite drop_0 in Hloop. rewrite Hloop by lia.
    destruct (pmch_scan _ _ _ _ _ _ _) as [[[i mcs]|]|]; reflexivity.
Qed.

Lemma bindM_Some {A B : Type} (m : PhyM A) (f : A -> PhyM B) (s s' : Phy) (b : B) :
  (x ← m; f x) s = Some (b, s') ->
  exists a s1, m s = Some (a, s1) /\ f a s1 = Some (b, s').
Proof.
  unfold_m. destruct (m s) as [[a s1]|]; [|discriminate].
  intros H. exists a, s1. split; [reflexivity | exact H].
Qed.

Lemma call_m_Some (stack : raw.srsran_mbsfn_cfg_t) (tti area : Z)
    (phy phy' : Phy) (r : raw.srsran_mbsfn_cfg_t * Z) :
  mbsfn_config_for_tti_m stack tti area phy = Some (r, phy') ->
  phy' = phy /\ call_result phy (stack, tti, area) r.
Proof.
  rewrite mbsfn_config_for_tti_m_spec.
  destruct (mbsfn_config_for_tti phy tti area) as [[cfg a]|] eqn:H;
    [|discriminate].
  intros [= <- <-]. split; [reflexivity|]. exists cfg, a. split; [exact H|reflexivity].
Qed.

Lemma run_calls_m_Some (calls : list (raw.srsran_mbsfn_cfg_t * Z * Z))
    (phy phy' : Phy) (rs : list (raw.srsran_mbsfn_cfg_t * Z)) :
  run_calls_m calls phy = Some (rs, phy') ->
  phy' = phy /\ Forall2 (call_result phy) calls rs.
Proof.
  revert rs phy'. induction calls as [|[[stack tti] area] calls IH];
    intros rs phy'.
  - intros [= <- <-]. split; [reflexivity | constructor].
  - cbn [run_calls_m]. intros H.
    apply bindM_Some in H as (r & s1 & Hr & H).
    apply call_m_Some in Hr as [-> Hr].
    apply bindM_Some in H as (rs' & s2 & Hrs & H).
    apply IH in Hrs as [-> Hrs].
    injection H as <- <-. split; [reflexivity | now constructor].
Qed.

Lemma run_calls_m_returns (calls : list (raw.srsran_mbsfn_cfg_t * Z * Z))
    (phy : Phy) :
  periods_ok phy -> exists rs, run_calls_m calls phy = Some (rs, phy).
Proof.
  intros Hok. induction calls as [|[[stack tti] area] calls [rs IH]].
  - eexists. reflexivity.
  - cbn [run_calls_m]. unfold_m.
    rewrite mbsfn_config_for_tti_m_spec.
    destruct (config_returns phy tti area Hok) as (cfg & a & ->).
    fold (run_calls_m calls). rewrite IH. eexists. reflexivity.
Qed.

(** Two decisions for one TTI agree wherever the function assigns. *)
Lemma call_results_agree (phy : Phy) (stack1 stack2 : raw.srsran_mbsfn_cfg_t)
    (tti area1 area2 : Z) (r1 r2 : raw.srsran_mbsfn_cfg_t * Z) :
  call_result phy (stack1, tti, area1) r1 ->
  call_result phy (stack2, tti, area2) r2 ->
  raw.enable (fst r1) = raw.enable (fst r2) /\
  raw.is_mcch (fst r1) = raw.is_mcch (fst r2) /\
  (_mcch_configured phy = true ->
   raw.mbsfn_area_id (fst r1) = raw.mbsfn_area_id (fst r2) /\
   raw.non_mbsfn_region_length (fst r1) =
     raw.non_mbsfn_region_length (fst r2)) /\
  (raw.enable (fst r1) = true ->
   raw.mbsfn_mcs (fst r1) = raw.mbsfn_mcs (fst r2)) /\
  (raw.enable (fst r1) = true /\ raw.is_mcch (fst r1) = false ->
   snd r1 = snd r2) /\
  (~ (raw.enable (fst r1) = true /\ raw.is_mcch (fst r1) = false) ->
   snd r1 = area1 /\ snd r2 = area2) /\
  (stack1 = stack2 -> area1 = area2 -> r1 = r2).
Proof.
  intros (cfg1 & a1 & H1 & ->) (cfg2 & a2 & H2 & ->). cbn [fst snd] in *.
  assert (Hcfg : cfg1 = cfg2).
  { pose proof (config_area_irrelevant phy tti area1 area2) as H.
    rewrite H1, H2 in H. now injection H. }
  subst cfg2.
  assert (Hlast : stack1 = stack2 -> area1 = area2 ->
                  (fill stack1 cfg1, a1) = (fill stack2 cfg1, a2)).
  { intros -> ->. rewrite H1 in H2. now injection H2 as ->. }
  destruct (config_result_cases _ _ _ _ _ H1)
    as [(Hc & -> & ->)|[(Hc & _ & _ & -> & ->)|[(Hc & -> & ->)|
        (Hc & _ & i & mcs & Hs & -> & ->)]]];
    destruct (config_result_cases _ _ _ _ _ H2)
      as [(Hc' & E & ->)|[(Hc' & _ & _ & E & ->)|[(Hc' & E & ->)|
          (Hc' & _ & i' & mcs' & Hs' & E & ->)]]];
    try discriminate E; try congruence;
    cbn; repeat split; try congruence; try discriminate;
    try (intros [? ?]; discriminate);
    try match goal with
        | Hn : ~ _ |- _ => exfalso; apply Hn; split; reflexivity
        | Hd : _ /\ _ |- _ => destruct Hd; discriminate
        end.
Qed.

(** C9, as amended. With the method written as a program over the object:
    a call hands the object back unchanged, and so does any run of calls;
    with calls before and between, two calls for the same TTI return
    decisions with the same [enable] and [is_mcch], the same area id and
    region length once MCCH is configured, the same coding scheme when the
    decision is enabled and the same channel index when a channel is
    assigned ([area] is left as passed in otherwise); with the same stack
    content and the same [area] they are equal. Every result of a run is
    the result that its call gives on the initial object, so the order of
    the calls does not matter. What the function leaves unassigned is
    whatever the stack held. *)
Theorem scheduling_pure (phy : Phy)
    (before between : list (raw.srsran_mbsfn_cfg_t * Z * Z))
    (stack1 stack2 : raw.srsran_mbsfn_cfg_t) (tti area1 area2 : Z) :
  (periods_ok phy ->
   exists r1 r2,
     two_calls_m before between stack1 stack2 tti area1 area2 phy =
       Some ((r1, r2), phy)) /\
  (forall r1 r2 phy',
     two_calls_m before between stack1 stack2 tti area1 area2 phy =
       Some ((r1, r2), phy') ->
     phy' = phy /\
     raw.enable (fst r1) = raw.enable (fst r2) /\
     raw.is_mcch (fst r1) = raw.is_mcch (fst r2) /\
     (_mcch_configured phy = true ->
      raw.mbsfn_area_id (fst r1) = raw.mbsfn_area_id (fst r2) /\
      raw.non_mbsfn_region_length (fst r1) =
        raw.non_mbsfn_region_length (fst r2)) /\
     (raw.enable (fst r1) = true ->
      raw.mbsfn_mcs (fst r1) = raw.mbsfn_mcs (fst r2)) /\
     (raw.enable (fst r1) = true /\ raw.is_mcch (fst r1) = false ->
      snd r1 = snd r2) /\
     (~ (raw.enable (fst r1) = true /\ raw.is_mcch (fst r1) = false) ->
      snd r1 = area1 /\ snd r2 = area2) /\
     (stack1 = stack2 -> area1 = area2 -> r1 = r2)) /\
  (forall calls rs phy',
     run_calls_m calls phy = Some (rs, phy') ->
     phy' = phy /\ Forall2 (call_result phy) calls rs).
Proof.
  split; [|split].
  - intros Hok. unfold two_calls_m. unfold_m.
    destruct (run_calls_m_returns before phy Hok) as [rs1 ->].
    rewrite mbsfn_config_for_tti_m_spec.
    destruct (config_returns phy tti area1 Hok) as (cfg1 & a1 & ->).
    destruct (run_calls_m_returns between phy Hok) as [rs2 ->].
    rewrite mbsfn_config_for_tti_m_spec.
    destruct (config_returns phy tti area2 Hok) as (cfg2 & a2 & ->).
    eexists _, _. reflexivity.
  - intros r1 r2 phy' H. unfold two_calls_m in H.
    apply bindM_Some in H as (rs1 & s1 & Hb & H).
    apply run_calls_m_Some in Hb as [-> _].
    apply bindM_Some in H as (q1 & s2 & H1 & H).
    apply call_m_Some in H1 as [-> H1].
    apply bindM_Some in H as (rs2 & s3 & Hbt & H).
    apply run_calls_m_Some in Hbt as [-> _].
    apply bindM_Some in H as (q2 & s4 & H2 & H).
    apply call_m_Some in H2 as [-> H2].
    injection H as <- <- <-.
    split; [reflexivity|]. exact (call_results_agree _ _ _ _ _ _ _ _ H1 H2).
  - intros calls rs phy'. apply run_calls_m_Some.
Qed.

(** C9 amended, on the scenario of two channels: calls at TTIs 0, 11 and 25
    in between, different stack contents, the enabled decision of
    [tti = 11] both times. *)
Lemma scheduling_pure_witness :
  periods_ok (phy_scenario true chans_two) /\
  (exists r1 r2,
     two_calls_m [] [(stack_254, 0, 0); (stack_0, 11, 1); (stack_254, 25, 0)]
       stack_0 stack_254 11 0 7 (phy_scenario true chans_two) =
       Some ((r1, r2), phy_scenario true chans_two)) /\
  (forall r1 r2 phy',
     two_calls_m [] [(stack_254, 0, 0); (stack_0, 11, 1); (stack_254, 25, 0)]
       stack_0 stack_254 11 0 7 (phy_scenario true chans_two) =
       Some ((r1, r2), phy') ->
     phy' = phy_scenario true chans_two /\
     raw.enable (fst r1) = raw.enable (fst r2)).
Proof.
  assert (Hok : periods_ok (phy_scenario true chans_two)).
  { split; [vm_compute; congruence|].
    repeat constructor; vm_compute; congruence. }
  pose proof (scheduling_pure (phy_scenario true chans_two) []
                [(stack_254, 0, 0); (stack_0, 11, 1); (stack_254, 25, 0)]
                stack_0 stack_254 11 0 7) as (Hret & Hagree & _).
  split; [exact Hok|]. split; [exact (Hret Hok)|].
  intros r1 r2 phy' H. destruct (Hagree r1 r2 phy' H) as (Hp & He & _).
  split; assumption.
Defined.

(** C9 as stated fails: two calls for [tti = 11] on the dedicated cell with
    one channel, with nothing in between and the configuration untouched,
    return decisions that differ in [mbsfn_mcs], which a disabled decision
    leaves as the stack had it. *)
Lemma scheduling_pure_counterexample :
  exists r1 r2,
    two_calls_m [] [] stack_0 stack_254 11 0 0 (phy_scenario true chans_one) =
      Some ((r1, r2), phy_scenario true chans_one) /\
    raw.enable (fst r1) = false /\ raw.enable (fst r2) = false /\
    raw.mbsfn_mcs (fst r1) = 0 /\ raw.mbsfn_mcs (fst r2) = 254 /\
    r1 <> r2.
Proof.
  eexists _, _. split; [vm_compute; reflexivity|].
  repeat (split; [reflexivity|]). discriminate.
Qed.

(** The embedding does follow what a member function writes: with
    [set_decode_mcch(false)] between the two calls for [tti = 0], the
    object comes back changed and the second decision is disabled. *)
Lemma setter_between_calls :
  (r1 ← mbsfn_config_for_tti_m stack_0 0 0;
   _ ← set_decode_mcch_m false;
   r2 ← mbsfn_config_for_tti_m stack_0 0 0;
   mret (raw.enable (fst r1), raw.enable (fst r2)))
    (phy_scenario true chans_one) =
  Some ((true, false), set_decode_mcch (phy_scenario true chans_one) false).
Proof. vm_compute. reflexivity. Qed.
